(** * waas-js-sdk: error classification and the asynchronous request handle

  A shallow embedding of the response interceptor and of the constructor
  checks of [WaasApi] (src/waas-api.ts), together with a model of the
  asynchronous request handle ([get] / [wait]) that the submitters hand
  out, and the properties of both.

  JavaScript values are embedded as the inductive [Js.value]; a promise
  is embedded by the value it settles with ([Settled]); what a [throw]
  raises is a [Thrown]. *)

From Stdlib Require Import ZArith String List Bool Lia.
Import ListNotations.

Open Scope string_scope.
Open Scope Z_scope.
Open Scope list_scope.

#[local] Set Warnings "-register-all".

(** ** JavaScript values *)

Module Js.

(** The values a parsed JSON body or an options object can hold.  Numbers
    are the integral ones; [NaN] and fractions are not represented. *)
Inductive value : Type :=
| Undefined
| Null
| Bool (b : bool)
| Num (n : Z)
| Str (s : string)
| Arr (items : list value)
| Obj (fields : list (string * value)).

(** An object is the list of its own properties, in insertion order. *)
Definition object : Type := list (string * value).

(** [o[k]] on an object: the property, or [undefined]. *)
Fixpoint prop (k : string) (o : object) : value :=
  match o with
  | [] => Undefined
  | (k', v) :: rest => if String.eqb k k' then v else prop k rest
  end.

(** [o[k] = v]: overwrite in place, or append a new property. *)
Fixpoint set (k : string) (v : value) (o : object) : object :=
  match o with
  | [] => [(k, v)]
  | (k', v') :: rest =>
      if String.eqb k k' then (k', v) :: rest else (k', v') :: set k v rest
  end.

(** [v.k] on any value, for a name [k] that is no built-in property
    (such as [message]): reading a property of [null] or [undefined]
    raises a TypeError ([None]); primitives and arrays have no such
    property. *)
Definition get (v : value) (k : string) : option value :=
  match v with
  | Undefined | Null => None
  | Obj o => Some (prop k o)
  | Bool _ | Num _ | Str _ | Arr _ => Some Undefined
  end.

(** ToBoolean, as [!x] and [if (x)] use it. *)
Definition truthy (v : value) : bool :=
  match v with
  | Undefined | Null => false
  | Bool b => b
  | Num n => negb (n =? 0)
  | Str s => negb (String.eqb s "")
  | Arr _ | Obj _ => true
  end.

Definition is_nil (v : value) : bool :=
  match v with Undefined | Null => true | _ => false end.

Definition is_string (v : value) : bool :=
  match v with Str _ => true | _ => false end.

Definition is_number (v : value) : bool :=
  match v with Num _ => true | _ => false end.

End Js.

(** ** The transport (axios) *)

Module Axios.

(** [AxiosResponse<T>]: the fields the SDK reads. *)
Record Response (T : Type) : Type := mkResponse {
  status : Z;
  data : T
}.
Arguments mkResponse {T} _ _.
Arguments status {T} _.
Arguments data {T} _.

(** [AxiosError]: [response] is absent when the exchange produced none
    (connection refused, timeout). *)
Record Error : Type := mkError {
  message : string;
  response : option (Response Js.value)
}.

(** What one exchange of the bare transport settles with: a response
    (a success status), or an [AxiosError]. *)
Inductive Exchange (T : Type) : Type :=
| Success (r : Response T)
| Failure (e : Error).
Arguments Success {T} _.
Arguments Failure {T} _.

(** [AxiosRequestConfig], as the constructor fills it. *)
Record RequestConfig : Type := mkConfig {
  baseURL : string;
  timeout : Z;
  headers : Js.object;
  responseType : string
}.

End Axios.

(** ** Typed errors *)

Module Errors.

(** Modelled from the spec: errors.ts, which declares the four error
    classes, is not part of the sources.  A constructor records the
    arguments of the [new] expression; the accessors below give the
    data the spec says each kind carries. *)
Inductive WaasError : Type :=
| AuthenticationError (msg : Js.value)
| NotFoundError (msg : Js.value)
| ConflictError (msg : Js.value)
| GeneralError (msg : Js.value) (status : Z) (activityId : Js.value).

(** Modelled from the spec: the carried message is the argument, or the
    empty string if it is absent. *)
Definition message_of_arg (msg : Js.value) : Js.value :=
  match msg with
  | Js.Undefined => Js.Str ""
  | v => v
  end.

(** [body.k] of a body that is an object; nothing otherwise. *)
Definition bodyField (k : string) (body : Js.value) : Js.value :=
  match body with
  | Js.Obj o => Js.prop k o
  | _ => Js.Undefined
  end.

(** Modelled from the spec: a GeneralError is made from a body and a
    status; the message it carries is the [message] of that body, or the
    body itself when it has none (a text, say), as the scenario of the
    spec and the wallet test of the interceptor have it. *)
Definition message (e : WaasError) : Js.value :=
  match e with
  | AuthenticationError m | NotFoundError m | ConflictError m => message_of_arg m
  | GeneralError m _ _ =>
      match bodyField "message" m with
      | Js.Undefined => message_of_arg m
      | v => v
      end
  end.

Definition status (e : WaasError) : option Z :=
  match e with
  | GeneralError _ s _ => Some s
  | _ => None
  end.

(** Modelled from the spec: the activityId of a GeneralError is the one it
    was given, or else the [activityId] of the body it was made from, if
    present. *)
Definition activityId (e : WaasError) : Js.value :=
  match e with
  | GeneralError m _ a =>
      match a with
      | Js.Undefined => bodyField "activityId" m
      | v => v
      end
  | _ => Js.Undefined
  end.

(** Everything a [throw] of the SDK can raise. *)
Inductive Thrown : Type :=
| Typed (e : WaasError)            (* one of the four typed kinds *)
| Raw (e : Axios.Error)            (* the transport's own error *)
| TypeError (reading : string)     (* property read on null/undefined *)
| TfTypeError (property : string)  (* typeforce validation failure *)
| TimeoutError.                    (* wait gave up *)

Definition is_typed (t : Thrown) : bool :=
  match t with Typed _ => true | _ => false end.

End Errors.

(** A settled promise. *)
Inductive Settled (T : Type) : Type :=
| Resolved (v : T)
| Rejected (e : Errors.Thrown).
Arguments Resolved {T} _.
Arguments Rejected {T} _.

(** ** typeforce *)

Module Typeforce.

(** The type strings the constructor uses: ["String"], ["Number"] and
    their ["?"]-prefixed optional forms. *)
Inductive ty : Type :=
| String
| Number
| Maybe (t : ty).

Fixpoint check (t : ty) (v : Js.value) : bool :=
  match t with
  | String => Js.is_string v
  | Number => Js.is_number v
  | Maybe t' => Js.is_nil v || check t' v
  end.

Definition schema : Type := list (string * ty).

(** The names every object inherits from [Object.prototype]. *)
Definition objectPrototype : list string :=
  [ "constructor"; "__defineGetter__"; "__defineSetter__"; "hasOwnProperty";
    "__lookupGetter__"; "__lookupSetter__"; "isPrototypeOf";
    "propertyIsEnumerable"; "toString"; "valueOf"; "__proto__";
    "toLocaleString" ].

(** [type[k]] is truthy: [k] is a property of the schema, or a name the
    compiled type object inherits. *)
Definition known (k : string) (s : schema) : bool :=
  existsb (fun kt => String.eqb k (fst kt)) s ||
  existsb (String.eqb k) objectPrototype.

(** [t(schema, value, strict)] on an object: every property of the
    schema is checked in turn, then, when [strict], every property of
    the value must be one for which [type[k]] is truthy.  [Some p] is the
    property the raised TfTypeError names, [None] is a pass. *)
Definition object (s : schema) (value : Js.object) (strict : bool)
  : option string :=
  match find (fun kt => negb (check (snd kt) (Js.prop (fst kt) value))) s with
  | Some (k, _) => Some k
  | None =>
      if strict then
        match find (fun kv => negb (known (fst kv) s)) value with
        | Some (k, _) => Some k
        | None => None
        end
      else None
  end.

End Typeforce.

(** ** The API client: src/waas-api.ts *)

Module WaasApi.
Import Errors.

(** The object type the constructor hands to typeforce. *)
Definition optionsType : Typeforce.schema :=
  [ ("clientId", Typeforce.String);
    ("clientSecret", Typeforce.String);
    ("subscription", Typeforce.String);
    ("vaultUrl", Typeforce.Maybe Typeforce.String);
    ("ethereumNetwork", Typeforce.Maybe Typeforce.String);
    ("ethereumTxSpeed", Typeforce.Maybe Typeforce.String);
    ("bitcoinNetwork", Typeforce.Maybe Typeforce.String);
    ("bitcoinTxSpeed", Typeforce.Maybe Typeforce.String);
    ("bitcoinTxConfirmations", Typeforce.Maybe Typeforce.String);
    ("bitcoinMaxFeeRate", Typeforce.Maybe Typeforce.Number) ].

(** [if (options.o) { api.headers[h] = options.o; }] *)
Definition optionalHeader (h o : string) (options headers : Js.object)
  : Js.object :=
  if Js.truthy (Js.prop o options)
  then Js.set h (Js.prop o options) headers
  else headers.

Definition api (options : Js.object) : Axios.RequestConfig :=
  let headers :=
    [ ("tangany-client-id", Js.prop "clientId" options);
      ("tangany-client-secret", Js.prop "clientSecret" options);
      ("tangany-subscription", Js.prop "subscription" options);
      ("common", Js.Obj [("Accept", Js.Str "application/json")]) ] in
  let headers := optionalHeader "tangany-vault-url" "vaultUrl" options headers in
  let headers :=
    optionalHeader "tangany-ethereum-network" "ethereumNetwork" options headers in
  let headers :=
    optionalHeader "tangany-ethereum-tx-speed" "ethereumTxSpeed" options headers in
  let headers :=
    optionalHeader "tangany-bitcoin-network" "bitcoinNetwork" options headers in
  let headers :=
    optionalHeader "tangany-bitcoin-tx-speed" "bitcoinTxSpeed" options headers in
  let headers :=
    optionalHeader "tangany-bitcoin-tx-confirmations" "bitcoinTxConfirmations"
      options headers in
  let headers :=
    optionalHeader "tangany-bitcoin-max-fee-rate" "bitcoinMaxFeeRate"
      options headers in
  {| Axios.baseURL := "http://localhost:7071";
     Axios.timeout := 20000;
     Axios.headers := headers;
     Axios.responseType := "json" |}.

(** What the constructor does to the outside, in order. *)
Inductive Effect : Type :=
| AxiosCreate (config : Axios.RequestConfig)
| InterceptorsUse.

Definition missing (name : string) : Thrown :=
  Typed (AuthenticationError (Js.Str ("Missing variable '" ++ name ++ "'")%string)).

(** [new WaasApi(options)]: the exception or the configuration of the
    instance that was built, and the effects performed on the way. *)
Definition constructor (options : Js.object)
  : (Thrown + Axios.RequestConfig) * list Effect :=
  if negb (Js.truthy (Js.prop "clientId" options)) then
    (inl (missing "clientId"), [])
  else if negb (Js.truthy (Js.prop "clientSecret" options)) then
    (inl (missing "clientSecret"), [])
  else if negb (Js.truthy (Js.prop "subscription" options)) then
    (inl (missing "subscription"), [])
  else
    match Typeforce.object optionsType options true with
    | Some p => (inl (TfTypeError p), [])
    | None => (inr (api options), [AxiosCreate (api options); InterceptorsUse])
    end.

(** The first handler of [instance.interceptors.response.use]; the
    [debug] calls of both handlers only log. *)
Definition onFulfilled {T : Type} (response : Axios.Response T)
  : Axios.Response T :=
  response.

(** [new C(e.response.data.message)]: the argument is evaluated first, and
    reading [message] off a null or undefined body raises. *)
Definition withMessage (C : Js.value -> WaasError) (data : Js.value) : Thrown :=
  match Js.get data "message" with
  | Some m => Typed (C m)
  | None => TypeError "message"
  end.

(** The second handler: it never returns, it only throws. *)
Definition onRejected (e : Axios.Error) : Thrown :=
  match Axios.response e with
  | Some response =>
      let status := Axios.status response in
      let data := Axios.data response in
      if status =? 401 then withMessage AuthenticationError data
      else if status =? 409 then withMessage ConflictError data
      else if status =? 404 then withMessage NotFoundError data
      else Typed (GeneralError data status Js.Undefined)
  | None => Raw e
  end.

(** A call through the configured instance: the exchange of the bare
    transport, then the response interceptor. *)
Definition request {T : Type} (x : Axios.Exchange T)
  : Settled (Axios.Response T) :=
  match x with
  | Axios.Success r => Resolved (onFulfilled r)
  | Axios.Failure e => Rejected (onRejected e)
  end.

End WaasApi.

(** ** The asynchronous request handle *)

Module AsyncRequest.
Import Errors.

(** The [status] object of [IAsyncRequestStatus]: the stage and the other
    string fields. *)
Record Status : Type := mkStatus {
  stage : string;
  fields : list (string * string)
}.

(** [IAsyncRequestStatus] (interfaces): the state of an asynchronous
    request; [output] is [null] or an object. *)
Record IAsyncRequestStatus : Type := mkRequestStatus {
  process : string;
  status : Status;
  created : Z;
  updated : Z;
  output : option Js.object
}.

(** What the handle does to the outside: a status fetch for a reference,
    or a delay, each with the time at which it starts. *)
Inductive Event : Type :=
| Fetch (id : string) (time : Z)
| Delay (ms : Z) (time : Z).

(** The clock (in ms) and the events so far, oldest first. *)
Record World : Type := mkWorld {
  now : Z;
  log : list Event
}.

(** The recognised options of [wait]; an interval is positive by type. *)
Record WaitOptions : Type := mkOptions {
  intervalMs : option positive;
  timeoutMs : option Z
}.

Section Handle.

(** The remote side: what an exchange of the bare transport for the status
    of reference [id], issued at time [t], settles with. *)
Variable remote : string -> Z -> Axios.Exchange IAsyncRequestStatus.

(** How long that exchange is in flight, in ms. *)
Variable latency : string -> Z -> N.

(** Which stage names are terminal. *)
Variable terminal : string -> bool.

(** The interval [wait] uses when the caller gives none. *)
Variable defaultIntervalMs : positive.

(** The time at which the exchange issued at [t] completes. *)
Definition finish (id : string) (t : Z) : Z :=
  t + Z.of_N (latency id t).

(** Modelled from the spec: request.ts (the handle class) is not part of
    the sources.  [get] performs exactly one fetch of the status through
    the configured instance and returns the body verbatim, when the
    exchange completes; the handle keeps nothing but the reference. *)
Definition get (id : string) (w : World)
  : Settled IAsyncRequestStatus * World :=
  let w' := {| now := finish id (now w); log := log w ++ [Fetch id (now w)] |} in
  match WaasApi.request (remote id (now w)) with
  | Resolved response => (Resolved (Axios.data response), w')
  | Rejected e => (Rejected e, w')
  end.

Definition sleep (ms : Z) (w : World) : World :=
  {| now := now w + ms; log := log w ++ [Delay ms (now w)] |}.

Definition expired (deadline : option Z) (t : Z) : bool :=
  match deadline with
  | Some d => d <=? t
  | None => false
  end.

(** Modelled from the spec: the polling loop of [wait] in request.ts, which
    is not part of the sources.  One cycle is a [get]; a failed poll
    propagates; a terminal status ends the loop with its output; otherwise
    the deadline is checked (between cycles, once the poll has completed)
    and the loop sleeps for the interval before the next poll.  [None] is
    an exhausted [fuel]: the loop is still running. *)
Fixpoint poll (fuel : nat) (id : string) (interval : Z) (deadline : option Z)
  (w : World) : option (Settled (option Js.object) * World) :=
  match fuel with
  | O => None
  | S fuel' =>
      match get id w with
      | (Rejected e, w1) => Some (Rejected e, w1)
      | (Resolved s, w1) =>
          if terminal (stage (status s)) then Some (Resolved (output s), w1)
          else if expired deadline (now w1) then Some (Rejected TimeoutError, w1)
          else poll fuel' id interval deadline (sleep interval w1)
      end
  end.

Definition interval (options : WaitOptions) : Z :=
  match intervalMs options with
  | Some ms => Z.pos ms
  | None => Z.pos defaultIntervalMs
  end.

(** Modelled from the spec: [wait(options)] of request.ts; the deadline is
    [timeoutMs] after the call, and there is none without [timeoutMs]. *)
Definition wait (fuel : nat) (id : string) (options : WaitOptions) (w : World)
  : option (Settled (option Js.object) * World) :=
  poll fuel id (interval options)
    (option_map (fun T => now w + T) (timeoutMs options)) w.

(** A poll that succeeds with a status that is not terminal. *)
Definition pending (id : string) (t : Z) : bool :=
  match remote id t with
  | Axios.Success r => negb (terminal (stage (status (Axios.data r))))
  | Axios.Failure _ => false
  end.

(** The time at which poll number [n] (from 0) is issued by a loop that
    starts at [t], while the polls before it find the request pending:
    each is followed by the interval, counted from its completion. *)
Fixpoint pollTime (n : nat) (id : string) (interval : Z) (t : Z) : Z :=
  match n with
  | O => t
  | S n' => pollTime n' id interval (finish id t + interval)
  end.

(** The time at which that poll completes. *)
Definition pollEnd (n : nat) (id : string) (interval : Z) (t : Z) : Z :=
  finish id (pollTime n id interval t).

(** The events of [n] cycles that each found the request pending. *)
Fixpoint cycles (n : nat) (id : string) (interval : Z) (t : Z) : list Event :=
  match n with
  | O => []
  | S n' =>
      Fetch id t :: Delay interval (finish id t)
      :: cycles n' id interval (finish id t + interval)
  end.

End Handle.

Definition fetches (l : list Event) : nat :=
  length (filter (fun e => match e with Fetch _ _ => true | _ => false end) l).

Definition delays (l : list Event) : nat :=
  length (filter (fun e => match e with Delay _ _ => true | _ => false end) l).

End AsyncRequest.

(** ** Sample inputs *)

Module Samples.

(** A failure with no response at all. *)
Definition connectionRefused : Axios.Error :=
  {| Axios.message := "connect ECONNREFUSED 127.0.0.1:7071";
     Axios.response := None |}.

Definition failed (status : Z) (body : Js.value) : Axios.Error :=
  {| Axios.message := "Request failed";
     Axios.response := Some (Axios.mkResponse status body) |}.

Definition boom : Js.value :=
  Js.Obj [("message", Js.Str "boom"); ("activityId", Js.Str "abc-1")].

Definition ramirez : Js.value := Js.Obj [("message", Js.Str "ramirez")].

Definition auth : Js.object :=
  [("clientId", Js.Str "1"); ("clientSecret", Js.Str "2");
   ("subscription", Js.Str "3")].

(** A remote for the polling scenarios: stages ["confirmed"] and ["error"]
    end a request. *)
Definition terminal (stage : string) : bool :=
  String.eqb stage "confirmed" || String.eqb stage "error".

Definition response (stage : string) (output : option Js.object)
  : Axios.Response AsyncRequest.IAsyncRequestStatus :=
  Axios.mkResponse 200
    {| AsyncRequest.process := "job-42";
       AsyncRequest.status :=
         {| AsyncRequest.stage := stage; AsyncRequest.fields := [] |};
       AsyncRequest.created := 0;
       AsyncRequest.updated := 0;
       AsyncRequest.output := output |}.

Definition snapshot (stage : string) (output : option Js.object)
  : Axios.Exchange AsyncRequest.IAsyncRequestStatus :=
  Axios.Success (response stage output).

Definition hash : Js.object := [("hash", Js.Str "0xabc")].

(** Pending at first, confirmed from 400 ms on. *)
Definition confirmedLater (id : string) (t : Z)
  : Axios.Exchange AsyncRequest.IAsyncRequestStatus :=
  if t <? 400 then snapshot "pending" None else snapshot "confirmed" (Some hash).

Definition confirmedAtOnce (id : string) (t : Z)
  : Axios.Exchange AsyncRequest.IAsyncRequestStatus :=
  snapshot "confirmed" (Some hash).

Definition alwaysPending (id : string) (t : Z)
  : Axios.Exchange AsyncRequest.IAsyncRequestStatus :=
  snapshot "pending" None.

(** Pending at first, then every poll from 400 ms on is answered 409. *)
Definition conflictLater (id : string) (t : Z)
  : Axios.Exchange AsyncRequest.IAsyncRequestStatus :=
  if t <? 400 then snapshot "pending" None
  else Axios.Failure (failed 409 ramirez).

(** Pending at first, confirmed from 200 ms on. *)
Definition confirmedSoon (id : string) (t : Z)
  : Axios.Exchange AsyncRequest.IAsyncRequestStatus :=
  if t <? 200 then snapshot "pending" None else snapshot "confirmed" (Some hash).

(** Exchanges that take no time, 30 ms, 600 ms. *)
Definition instant (id : string) (t : Z) : N := 0%N.

Definition quick (id : string) (t : Z) : N := 30%N.


Definition start : AsyncRequest.World :=
  {| AsyncRequest.now := 0; AsyncRequest.log := [] |}.

Definition noOptions : AsyncRequest.WaitOptions :=
  {| AsyncRequest.intervalMs := None; AsyncRequest.timeoutMs := None |}.

Definition every250 : AsyncRequest.WaitOptions :=
  {| AsyncRequest.intervalMs := Some 250%positive;
     AsyncRequest.timeoutMs := None |}.

Definition oneSecond : AsyncRequest.WaitOptions :=
  {| AsyncRequest.intervalMs := Some 400%positive;
     AsyncRequest.timeoutMs := Some 1000 |}.

End Samples.

(** ** The ERC20 wallet: [EthErc20Wallet] *)

Module EthErc20Wallet.

Inductive METHOD : Type :=
| TRANSFER
| APPROVE
| TRANSFER_FROM
| BURN
| MINT.

(** What [getRecipientsData] throws: [new Error(message)], or the error of
    typeforce, which names a property. *)
Inductive Raised : Type :=
| Error (message : string)
| TfTypeError (property : string).

(** The request a method hands to [this.waas.instance.post]. *)
Record Post : Type := mkPost {
  url : string;
  data : Js.object
}.

Section RecipientsData.

(** [recipientType] is imported from ./waas, which is not part of the
    sources: the check [t(recipientType, value, true)] is a parameter,
    [Some p] being the property the raised error names. *)
Variable recipientType : Js.object -> option string.

(** [t(schema, value, true); return value;] *)
Definition checked (s : Typeforce.schema) (value : Js.object)
  : Raised + Js.object :=
  match Typeforce.object s value true with
  | Some p => inl (TfTypeError p)
  | None => inr value
  end.

(** [getRecipientsData(method)({to, amount, from})]: the argument is
    destructured by reading its three properties. *)
Definition getRecipientsData (method : METHOD) (recipient : Js.object)
  : Raised + Js.object :=
  let to := Js.prop "to" recipient in
  let amount := Js.prop "amount" recipient in
  let from := Js.prop "from" recipient in
  match method with
  | MINT =>
      if negb (Js.truthy amount) then inl (Error "Missing 'amount' argument")
      else if Js.truthy from then inl (Error "Invalid 'from' argument")
      else
        checked
          [("to", Typeforce.Maybe Typeforce.String); ("amount", Typeforce.String)]
          [("to", to); ("amount", amount)]
  | BURN =>
      if negb (Js.truthy amount) then inl (Error "Missing 'amount' argument")
      else if Js.truthy to then inl (Error "Invalid 'to' argument")
      else if Js.truthy from then inl (Error "Invalid 'from' argument")
      else checked [("amount", Typeforce.String)] [("amount", amount)]
  | TRANSFER_FROM =>
      if negb (Js.truthy from) then inl (Error "Missing 'from' argument")
      else if Js.truthy to then inl (Error "Invalid 'to' argument")
      else if negb (Js.truthy amount) then inl (Error "Missing 'amount' argument")
      else
        checked
          [("from", Typeforce.String); ("amount", Typeforce.String)]
          [("from", from); ("amount", amount)]
  | APPROVE | TRANSFER =>
      if negb (Js.truthy to) then inl (Error "Missing 'to' argument")
      else if Js.truthy from then inl (Error "Invalid 'from' argument")
      else if negb (Js.truthy amount) then inl (Error "Missing 'amount' argument")
      else
        match recipientType [("to", to); ("amount", amount)] with
        | Some p => inl (TfTypeError p)
        | None => inr [("to", to); ("amount", amount)]
        end
  end.

(** [post(`eth/erc20/${this.address}/${this.wallet}/<operation>`, body)],
    for the wallet name [wallet] that the getter of the base class gave:
    the body is computed, and may throw, before anything is posted.  The
    five methods below are the functions that [send], [approve],
    [transferFrom], [burn] and [mint] hand to [waas.wrap] (which is not
    part of the sources): each throws, or posts one request. *)
Definition post (address wallet operation : string) (body : Raised + Js.object)
  : Raised + Post :=
  match body with
  | inl e => inl e
  | inr o =>
      inr {| url := ("eth/erc20/" ++ address ++ "/" ++ wallet ++ "/" ++ operation)%string;
             data := o |}
  end.

(** [send(recipient)] *)
Definition send (address wallet : string) (recipient : Js.object)
  : Raised + Post :=
  post address wallet "send" (getRecipientsData TRANSFER recipient).

(** [approve({to, amount})] *)
Definition approve (address wallet : string) (arg : Js.object) : Raised + Post :=
  let to := Js.prop "to" arg in
  let amount := Js.prop "amount" arg in
  post address wallet "approve"
    (getRecipientsData APPROVE [("to", to); ("amount", amount)]).

(** [transferFrom({from, amount})] *)
Definition transferFrom (address wallet : string) (arg : Js.object)
  : Raised + Post :=
  let from := Js.prop "from" arg in
  let amount := Js.prop "amount" arg in
  post address wallet "transfer-from"
    (getRecipientsData TRANSFER_FROM [("from", from); ("amount", amount)]).

(** [burn({amount})] *)
Definition burn (address wallet : string) (arg : Js.object) : Raised + Post :=
  let amount := Js.prop "amount" arg in
  post address wallet "burn" (getRecipientsData BURN [("amount", amount)]).

(** [mint({amount, to})] *)
Definition mint (address wallet : string) (arg : Js.object) : Raised + Post :=
  let amount := Js.prop "amount" arg in
  let to := Js.prop "to" arg in
  post address wallet "mint"
    (getRecipientsData MINT [("amount", amount); ("to", to)]).

End RecipientsData.

End EthErc20Wallet.

(** ** Notions used in the statements *)

(** The statuses whose error carries the body's [message] only. *)
Definition messageStatus (status : Z) : bool :=
  (status =? 401) || (status =? 409) || (status =? 404).

(** The class the interceptor picks for such a status. *)
Definition classOf (status : Z) : Js.value -> Errors.WaasError :=
  if status =? 401 then Errors.AuthenticationError
  else if status =? 409 then Errors.ConflictError
  else Errors.NotFoundError.

(** The three credentials the constructor insists on. *)
Definition credentials : list string :=
  ["clientId"; "clientSecret"; "subscription"].

(** A credential that is missing, or the empty string. *)
Definition missingOrEmpty (v : Js.value) : Prop :=
  v = Js.Undefined \/ v = Js.Str "".

(** A credential as [IWaaSOptions] types it: a string, or not given. *)
Definition stringOrAbsent (v : Js.value) : Prop :=
  v = Js.Undefined \/ exists s, v = Js.Str s.

(** A credential that is a string with something in it. *)
Definition wellFormed (v : Js.value) : Prop :=
  exists s, v = Js.Str s /\ s <> "".

(** An optional option that is given (neither undefined nor null) and is
    not of the type [t] its name asks for. *)
Definition wronglyTyped (options : Js.object) (k : string) (t : Typeforce.ty)
  : Prop :=
  In (k, Typeforce.Maybe t) WaasApi.optionsType /\
  Js.is_nil (Js.prop k options) = false /\
  Typeforce.check t (Js.prop k options) = false.

(** The delay between polls that the caller configured: [intervalMs], or
    the default when the options have none. *)
Definition configuredInterval (defaultIntervalMs : positive)
  (options : AsyncRequest.WaitOptions) : Z :=
  match AsyncRequest.intervalMs options with
  | Some ms => Z.pos ms
  | None => Z.pos defaultIntervalMs
  end.

(** The first [n] polls of a loop started at [t0] with interval [i] all
    find the request pending. *)
Definition pendingFor (remote : string -> Z -> Axios.Exchange AsyncRequest.IAsyncRequestStatus)
  (latency : string -> Z -> N)
  (terminal : string -> bool) (id : string) (t0 i : Z) (n : nat) : Prop :=
  forall j, (j < n)%nat ->
    AsyncRequest.pending remote terminal id
      (AsyncRequest.pollTime latency j id i t0) = true.


(** The timeout, if any, has not run out when any of the first [n] polls
    of a loop started at [t0] completes. *)
Definition withinTimeout (latency : string -> Z -> N)
  (options : AsyncRequest.WaitOptions) (id : string) (t0 i : Z) (n : nat)
  : Prop :=
  forall T, AsyncRequest.timeoutMs options = Some T ->
    forall j, (j < n)%nat -> AsyncRequest.pollEnd latency j id i t0 < t0 + T.


(** The optional options and the header each one is sent in. *)
Definition optionalHeaders : list (string * string) :=
  [ ("tangany-vault-url", "vaultUrl");
    ("tangany-ethereum-network", "ethereumNetwork");
    ("tangany-ethereum-tx-speed", "ethereumTxSpeed");
    ("tangany-bitcoin-network", "bitcoinNetwork");
    ("tangany-bitcoin-tx-speed", "bitcoinTxSpeed");
    ("tangany-bitcoin-tx-confirmations", "bitcoinTxConfirmations");
    ("tangany-bitcoin-max-fee-rate", "bitcoinMaxFeeRate") ].

(** The headers that carry the credentials. *)
Definition credentialHeaders : list (string * string) :=
  [ ("tangany-client-id", "clientId");
    ("tangany-client-secret", "clientSecret");
    ("tangany-subscription", "subscription") ].

(** Every optional option is not given (undefined or null) or of its
    type. *)
Definition optionalsTyped (options : Js.object) : Prop :=
  forall k t, In (k, Typeforce.Maybe t) WaasApi.optionsType ->
    Js.is_nil (Js.prop k options) = true \/
    Typeforce.check t (Js.prop k options) = true.

(** Every property of the options object is one the constructor knows,
    or has a name that every object inherits, which the strict check of
    typeforce lets through. *)
Definition onlyKnownOptions (options : Js.object) : Prop :=
  forall k v, In (k, v) options ->
    In k (map fst WaasApi.optionsType) \/ In k Typeforce.objectPrototype.

(** [name] is a credential, and [P] holds of the credentials checked
    before it. *)
Definition firstCredential (P : string -> Prop) (name : string) : Prop :=
  exists before after,
    credentials = before ++ name :: after /\
    forall c, In c before -> P c.

(** A value typeforce takes for ["?String"]. *)
Definition stringOrNil (v : Js.value) : Prop :=
  Js.is_nil v = true \/ Js.is_string v = true.

(** * Properties *)

(** ** The response interceptor *)

Section Interceptor.
Import Errors.

Lemma onRejected_message_status (e : Axios.Error) (r : Axios.Response Js.value) :
  Axios.response e = Some r ->
  messageStatus (Axios.status r) = true ->
  WaasApi.onRejected e = WaasApi.withMessage (classOf (Axios.status r)) (Axios.data r).
Proof.
  intros He Hs. unfold WaasApi.onRejected, classOf. rewrite He.
  unfold messageStatus in Hs.
  destruct (Axios.status r =? 401); [reflexivity|].
  destruct (Axios.status r =? 409); [reflexivity|].
  destruct (Axios.status r =? 404); [reflexivity|discriminate].
Qed.

Lemma onRejected_other_status (e : Axios.Error) (r : Axios.Response Js.value) :
  Axios.response e = Some r ->
  messageStatus (Axios.status r) = false ->
  WaasApi.onRejected e
  = Typed (GeneralError (Axios.data r) (Axios.status r) Js.Undefined).
Proof.
  intros He Hs. unfold WaasApi.onRejected. rewrite He.
  unfold messageStatus in Hs.
  apply orb_false_iff in Hs as [Hs H404].
  apply orb_false_iff in Hs as [H401 H409].
  now rewrite H401, H409, H404.
Qed.

(** On a body that has properties, statuses 401, 404 and 409 give the
    error of their class with the body's [message], the empty string when
    the body has none. *)
Lemma onRejected_carries_message (e : Axios.Error) (r : Axios.Response Js.value) :
  Axios.response e = Some r ->
  messageStatus (Axios.status r) = true ->
  Js.is_nil (Axios.data r) = false ->
  exists m,
    Js.get (Axios.data r) "message" = Some m /\
    WaasApi.onRejected e = Typed (classOf (Axios.status r) m) /\
    message (classOf (Axios.status r) m)
    = match m with Js.Undefined => Js.Str "" | _ => m end.
Proof.
  intros He Hs Hnil. rewrite (onRejected_message_status e r He Hs).
  unfold WaasApi.withMessage.
  destruct (Js.get (Axios.data r) "message") as [m|] eqn:Hm.
  - exists m. repeat split.
    unfold classOf.
    destruct (Axios.status r =? 401); [reflexivity|].
    destruct (Axios.status r =? 409); reflexivity.
  - destruct (Axios.data r); discriminate.
Qed.

(** C1 (failing input).  A 401 whose parsed body is [null]: reading
    [message] off the body raises a TypeError before any
    AuthenticationError is built, so no typed error with the empty message
    comes out; 404 and 409 behave alike. *)
Theorem onRejected_null_body_raises_TypeError :
  WaasApi.onRejected (Samples.failed 401 Js.Null) = TypeError "message" /\
  WaasApi.onRejected (Samples.failed 404 Js.Null) = TypeError "message" /\
  WaasApi.onRejected (Samples.failed 409 Js.Null) = TypeError "message" /\
  WaasApi.onRejected (Samples.failed 401 Js.Null)
  <> Typed (AuthenticationError Js.Undefined) /\
  is_typed (WaasApi.onRejected (Samples.failed 401 Js.Null)) = false.
Proof.
  repeat split; try reflexivity. discriminate.
Qed.

(** C2 (counterexample).  A failure without a response leaves the
    interceptor as the raw transport error, not as a GeneralError. *)
Lemma connectionRefused_escapes_raw :
  WaasApi.onRejected Samples.connectionRefused = Raw Samples.connectionRefused /\
  is_typed (WaasApi.onRejected Samples.connectionRefused) = false.
Proof.
  split; reflexivity.
Qed.

(** C2 (amended).  A failure that carries no response is rethrown as it
    is; a failure that carries a response is turned into one of the four
    typed kinds whenever its status is none of 401, 404, 409 or its body
    is neither null nor undefined. *)
Theorem onRejected_error_surface (e : Axios.Error) :
  (Axios.response e = None -> WaasApi.onRejected e = Raw e) /\
  (forall r, Axios.response e = Some r ->
     messageStatus (Axios.status r) = false \/ Js.is_nil (Axios.data r) = false ->
     exists w, WaasApi.onRejected e = Typed w).
Proof.
  split.
  - intros He. unfold WaasApi.onRejected. now rewrite He.
  - intros r He Hok.
    destruct (messageStatus (Axios.status r)) eqn:Hs.
    + destruct Hok as [Hok|Hnil]; [discriminate|].
      destruct (onRejected_carries_message e r He Hs Hnil) as (m & _ & Hm & _).
      eauto.
    + rewrite (onRejected_other_status e r He Hs). eauto.
Qed.

Lemma onRejected_error_surface_witness :
  WaasApi.onRejected Samples.connectionRefused = Raw Samples.connectionRefused /\
  (exists w, WaasApi.onRejected (Samples.failed 409 Samples.ramirez) = Typed w) /\
  (exists w, WaasApi.onRejected (Samples.failed 500 Js.Null) = Typed w).
Proof.
  split; [|split].
  - apply (proj1 (onRejected_error_surface Samples.connectionRefused)).
    reflexivity.
  - apply (proj2 (onRejected_error_surface (Samples.failed 409 Samples.ramirez))
             (Axios.mkResponse 409 Samples.ramirez)).
    + reflexivity.
    + right. reflexivity.
  - apply (proj2 (onRejected_error_surface (Samples.failed 500 Js.Null))
             (Axios.mkResponse 500 Js.Null)).
    + reflexivity.
    + left. reflexivity.
Defined.

(** C3.  A failed exchange whose status is none of 401, 404, 409 gives a
    GeneralError made from the whole response body and the status.  It
    carries that status; its activityId is the body's, if the body has
    one; and its message is the body's [message], or the whole body when
    the body has none. *)
Theorem onRejected_general_error (e : Axios.Error) (r : Axios.Response Js.value) :
  Axios.response e = Some r ->
  messageStatus (Axios.status r) = false ->
  let error := GeneralError (Axios.data r) (Axios.status r) Js.Undefined in
  WaasApi.onRejected e = Typed error /\
  status error = Some (Axios.status r) /\
  activityId error = bodyField "activityId" (Axios.data r) /\
  (bodyField "message" (Axios.data r) <> Js.Undefined ->
   message error = bodyField "message" (Axios.data r)) /\
  (bodyField "message" (Axios.data r) = Js.Undefined ->
   Axios.data r <> Js.Undefined ->
   message error = Axios.data r).
Proof.
  intros He Hs error. split; [exact (onRejected_other_status e r He Hs)|].
  unfold error, status, activityId, message. repeat split.
  - intros Hm. destruct (bodyField "message" (Axios.data r)); congruence.
  - intros -> Hbody. unfold message_of_arg.
    destruct (Axios.data r); congruence.
Qed.

(** HTTP 500 with body [{message: "boom", activityId: "abc-1"}], and the
    418 of the wallet test. *)
Lemma onRejected_general_error_witness :
  (exists error,
     WaasApi.onRejected (Samples.failed 500 Samples.boom) = Typed error /\
     status error = Some 500 /\
     message error = Js.Str "boom" /\
     activityId error = Js.Str "abc-1") /\
  (exists error,
     WaasApi.onRejected
       (Samples.failed 418 (Js.Obj [("message", Js.Str "ban earl grey")]))
     = Typed error /\
     status error = Some 418 /\
     message error = Js.Str "ban earl grey").
Proof.
  split.
  - destruct (onRejected_general_error (Samples.failed 500 Samples.boom)
                (Axios.mkResponse 500 Samples.boom) eq_refl eq_refl)
      as (Hthrown & Hstatus & Hactivity & Hmessage & _).
    eexists. split; [exact Hthrown|]. split; [exact Hstatus|].
    split; [|exact Hactivity].
    apply Hmessage. discriminate.
  - destruct (onRejected_general_error
                (Samples.failed 418 (Js.Obj [("message", Js.Str "ban earl grey")]))
                (Axios.mkResponse 418 (Js.Obj [("message", Js.Str "ban earl grey")]))
                eq_refl eq_refl)
      as (Hthrown & Hstatus & _ & Hmessage & _).
    eexists. split; [exact Hthrown|]. split; [exact Hstatus|].
    apply Hmessage. discriminate.
Defined.

(** C10.  A response goes through the interceptor unchanged: the first
    handler is the identity, and a successful exchange resolves with the
    very response the transport produced. *)
Theorem request_success_unchanged (T : Type) (r : Axios.Response T) :
  WaasApi.onFulfilled r = r /\
  WaasApi.request (Axios.Success r) = Resolved r.
Proof.
  split; reflexivity.
Qed.

End Interceptor.

(** ** The constructor *)

Section Constructor.
Import Errors.

Lemma missingOrEmpty_falsy (v : Js.value) :
  missingOrEmpty v -> Js.truthy v = false.
Proof.
  intros [-> | ->]; reflexivity.
Qed.

Lemma wellFormed_truthy (v : Js.value) :
  wellFormed v -> Js.truthy v = true.
Proof.
  intros (s & -> & Hs). simpl.
  destruct (String.eqb_spec s ""); [contradiction|reflexivity].
Qed.

(** The constructor stops at the first credential that is falsy. *)
Lemma constructor_first_falsy (options : Js.object) :
  (exists name, In name credentials /\ Js.truthy (Js.prop name options) = false) ->
  exists name,
    In name credentials /\
    Js.truthy (Js.prop name options) = false /\
    WaasApi.constructor options = (inl (WaasApi.missing name), []).
Proof.
  intros (name & Hin & Hfalsy). unfold WaasApi.constructor.
  destruct (Js.truthy (Js.prop "clientId" options)) eqn:H1; simpl.
  2:{ exists "clientId". simpl. auto. }
  destruct (Js.truthy (Js.prop "clientSecret" options)) eqn:H2; simpl.
  2:{ exists "clientSecret". simpl. auto. }
  destruct (Js.truthy (Js.prop "subscription" options)) eqn:H3; simpl.
  2:{ exists "subscription". simpl. auto. }
  simpl in Hin.
  destruct Hin as [<- | [<- | [<- | []]]]; congruence.
Qed.

(** typeforce rejects an object with a property that fails its type. *)
Lemma typeforce_object_rejects (s : Typeforce.schema) (value : Js.object)
  (strict : bool) (k : string) (t : Typeforce.ty) :
  In (k, t) s ->
  Typeforce.check t (Js.prop k value) = false ->
  exists p, Typeforce.object s value strict = Some p.
Proof.
  intros Hin Hcheck. unfold Typeforce.object.
  destruct (find _ s) as [[p ?]|] eqn:Hfind; [eauto|].
  apply (find_none _ _ Hfind) in Hin. simpl in Hin.
  rewrite Hcheck in Hin. discriminate.
Qed.

Lemma falsy_credential_missingOrEmpty (v : Js.value) :
  Js.truthy v = false -> stringOrAbsent v -> missingOrEmpty v.
Proof.
  intros Hfalsy [-> | (s & ->)]; [now left|]. right. simpl in Hfalsy.
  apply negb_false_iff, String.eqb_eq in Hfalsy. now subst.
Qed.

(** C9.  With a credential missing or empty the constructor throws, on
    the spot and before the transport instance is created, an
    AuthenticationError whose message names a credential that is falsy,
    hence, for a credential typed as the options interface has it, one
    that is missing or empty; with the three credentials well formed and an
    optional option of the wrong type it throws, likewise, the type error
    of typeforce. *)
Theorem constructor_validates_options (options : Js.object) :
  ((exists name, In name credentials /\ missingOrEmpty (Js.prop name options)) ->
   exists name,
     In name credentials /\
     Js.truthy (Js.prop name options) = false /\
     (stringOrAbsent (Js.prop name options) ->
      missingOrEmpty (Js.prop name options)) /\
     WaasApi.constructor options
     = (inl (Typed (AuthenticationError
                      (Js.Str ("Missing variable '" ++ name ++ "'")%string))), [])) /\
  ((forall name, In name credentials -> wellFormed (Js.prop name options)) ->
   (exists k t, wronglyTyped options k t) ->
   exists p, WaasApi.constructor options = (inl (TfTypeError p), [])).
Proof.
  split.
  - intros (name & Hin & Hmissing).
    destruct (constructor_first_falsy options) as (first & Hfirst & Hfalsy & Hthrow).
    { exists name. split; [assumption|]. now apply missingOrEmpty_falsy. }
    exists first. repeat split; try assumption.
    now apply falsy_credential_missingOrEmpty.
  - intros Hcreds (k & t & Hin & Hnil & Hcheck).
    unfold WaasApi.constructor.
    rewrite !wellFormed_truthy by (apply Hcreds; simpl; auto). simpl.
    destruct (typeforce_object_rejects WaasApi.optionsType options true
                k (Typeforce.Maybe t) Hin) as [p Hp].
    + simpl. rewrite Hnil, Hcheck. reflexivity.
    + rewrite Hp. eauto.
Qed.

Lemma constructor_validates_options_witness :
  (exists name,
     In name credentials /\
     Js.truthy (Js.prop name (("clientId", Js.Str "") :: Samples.auth)) = false /\
     (stringOrAbsent (Js.prop name (("clientId", Js.Str "") :: Samples.auth)) ->
      missingOrEmpty (Js.prop name (("clientId", Js.Str "") :: Samples.auth))) /\
     WaasApi.constructor (("clientId", Js.Str "") :: Samples.auth)
     = (inl (Typed (AuthenticationError
                      (Js.Str ("Missing variable '" ++ name ++ "'")%string))), [])) /\
  (exists p,
     WaasApi.constructor (Samples.auth ++ [("vaultUrl", Js.Bool true)])
     = (inl (TfTypeError p), [])).
Proof.
  split.
  - apply (proj1 (constructor_validates_options
                    (("clientId", Js.Str "") :: Samples.auth))).
    exists "clientId". split; [simpl; auto|]. right. reflexivity.
  - apply (proj2 (constructor_validates_options
                    (Samples.auth ++ [("vaultUrl", Js.Bool true)]))).
    + intros name [<- | [<- | [<- | []]]].
      * exists "1". split; [reflexivity|discriminate].
      * exists "2". split; [reflexivity|discriminate].
      * exists "3". split; [reflexivity|discriminate].
    + exists "vaultUrl", Typeforce.String. unfold wronglyTyped.
      split; [simpl; auto 10|]. split; reflexivity.
Defined.

End Constructor.

(** ** The request handle *)

Section HandleFacts.
Import Errors AsyncRequest.

Variable remote : string -> Z -> Axios.Exchange IAsyncRequestStatus.
Variable latency : string -> Z -> N.
Variable terminal : string -> bool.
Variable defaultIntervalMs : positive.

Local Abbreviation get := (AsyncRequest.get remote latency).
Local Abbreviation poll := (AsyncRequest.poll remote latency terminal).
Local Abbreviation wait :=
  (AsyncRequest.wait remote latency terminal defaultIntervalMs).
Local Abbreviation pending := (AsyncRequest.pending remote terminal).
Local Abbreviation interval := (AsyncRequest.interval defaultIntervalMs).
Local Abbreviation finish := (AsyncRequest.finish latency).
Local Abbreviation pollTime := (AsyncRequest.pollTime latency).
Local Abbreviation pollEnd := (AsyncRequest.pollEnd latency).
Local Abbreviation cycles := (AsyncRequest.cycles latency).
Local Abbreviation configured := (configuredInterval defaultIntervalMs).

(** The loop sleeps for what the caller configured. *)
Lemma interval_configured (options : WaitOptions) :
  interval options = configured options.
Proof.
  reflexivity.
Qed.





Lemma get_success (id : string) (w : World) (r : Axios.Response IAsyncRequestStatus) :
  remote id (now w) = Axios.Success r ->
  get id w
  = (Resolved (Axios.data r),
     {| now := finish id (now w); log := log w ++ [Fetch id (now w)] |}).
Proof.
  intros Hr. unfold AsyncRequest.get. rewrite Hr. reflexivity.
Qed.

Lemma get_failure (id : string) (w : World) (e : Axios.Error) :
  remote id (now w) = Axios.Failure e ->
  get id w
  = (Rejected (WaasApi.onRejected e),
     {| now := finish id (now w); log := log w ++ [Fetch id (now w)] |}).
Proof.
  intros Hr. unfold AsyncRequest.get. rewrite Hr. reflexivity.
Qed.

Lemma pending_inv (id : string) (t : Z) :
  pending id t = true ->
  exists r, remote id t = Axios.Success r /\
            terminal (stage (status (Axios.data r))) = false.
Proof.
  unfold AsyncRequest.pending. destruct (remote id t) as [r|e]; [|discriminate].
  intros H. exists r. split; [reflexivity|].
  now apply negb_true_iff in H.
Qed.

(** One cycle on a pending request before the deadline: a fetch, then,
    from its completion, the delay. *)
Lemma poll_pending_step (fuel : nat) (id : string) (i : Z) (deadline : option Z)
  (w : World) :
  pending id (now w) = true ->
  expired deadline (finish id (now w)) = false ->
  poll (S fuel) id i deadline w
  = poll fuel id i deadline
      {| now := finish id (now w) + i;
         log := log w ++ [Fetch id (now w); Delay i (finish id (now w))] |}.
Proof.
  intros Hp Hd. destruct (pending_inv id (now w) Hp) as (r & Hr & Ht).
  simpl. rewrite (get_success id w r Hr), Ht. simpl. rewrite Hd.
  unfold sleep. simpl. rewrite <- app_assoc. reflexivity.
Qed.

(** [n] such cycles in a row. *)
Lemma poll_pending_cycles (n : nat) :
  forall (fuel : nat) (id : string) (i : Z) (deadline : option Z) (w : World),
    (forall j, (j < n)%nat -> pending id (pollTime j id i (now w)) = true) ->
    (forall j, (j < n)%nat -> expired deadline (pollEnd j id i (now w)) = false) ->
    poll (n + fuel) id i deadline w
    = poll fuel id i deadline
        {| now := pollTime n id i (now w);
           log := log w ++ cycles n id i (now w) |}.
Proof.
  induction n as [|n IH]; intros fuel id i deadline w Hp Hd.
  - simpl. rewrite app_nil_r. now destruct w.
  - change (S n + fuel)%nat with (S (n + fuel)).
    rewrite poll_pending_step.
    + rewrite IH.
      * simpl. rewrite <- app_assoc. reflexivity.
      * intros j Hj. apply (Hp (S j)). lia.
      * intros j Hj. apply (Hd (S j)). lia.
    + apply (Hp O). lia.
    + apply (Hd O). lia.
Qed.

Lemma fetches_cycles (n : nat) (id : string) (i t : Z) (tail : list Event) :
  fetches (cycles n id i t ++ tail) = (n + fetches tail)%nat /\
  delays (cycles n id i t ++ tail) = (n + delays tail)%nat.
Proof.
  revert t. induction n as [|n IH]; intros t; [split; reflexivity|].
  destruct (IH (finish id t + i)) as [Hf Hd]. unfold fetches, delays in *. simpl.
  rewrite Hf, Hd. split; reflexivity.
Qed.

(** Every delay of the cycles is the interval, and starts when a poll
    completes. *)
Lemma delays_of_cycles (n : nat) :
  forall (id : string) (i t ms s : Z),
    In (Delay ms s) (cycles n id i t) ->
    ms = i /\ exists j, (j < n)%nat /\ s = pollEnd j id i t.
Proof.
  induction n as [|n IH]; intros id i t ms s Hin; [destruct Hin|].
  simpl in Hin. destruct Hin as [Hin|[Hin|Hin]]; [discriminate| |].
  - injection Hin as <- <-. split; [reflexivity|]. exists O. split; [lia|reflexivity].
  - apply IH in Hin as (-> & j & Hj & ->). split; [reflexivity|].
    exists (S j). split; [lia|reflexivity].
Qed.

Lemma withinTimeout_unexpired (options : WaitOptions) (id : string) (i : Z)
  (w : World) (n : nat) :
  withinTimeout latency options id (now w) i n ->
  forall j, (j < n)%nat ->
    expired (option_map (fun T => now w + T) (timeoutMs options))
      (pollEnd j id i (now w)) = false.
Proof.
  intros Hin j Hj. unfold withinTimeout in Hin.
  destruct (timeoutMs options) as [T|]; [|reflexivity].
  simpl. apply Z.leb_gt. exact (Hin T eq_refl j Hj).
Qed.



(** However the loop ends, every poll but the last one found the request
    pending, the last fetch is the last event, and an output it resolves
    with is that of the terminal status the last poll fetched. *)
Lemma poll_shape (fuel : nat) :
  forall (id : string) (i : Z) (deadline : option Z) (w w' : World)
         (res : Settled (option Js.object)),
    poll fuel id i deadline w = Some (res, w') ->
    exists n : nat,
      (n < fuel)%nat /\
      pendingFor remote latency terminal id (now w) i n /\
      now w' = pollEnd n id i (now w) /\
      log w' = log w ++ cycles n id i (now w) ++ [Fetch id (pollTime n id i (now w))] /\
      (forall o, res = Resolved o ->
         exists r, remote id (pollTime n id i (now w)) = Axios.Success r /\
                   terminal (stage (status (Axios.data r))) = true /\
                   o = output (Axios.data r)).
Proof.
  induction fuel as [|fuel IH]; intros id i deadline w w' res; [discriminate|].
  assert (Hzero : forall x,
    (forall o, x = Resolved o ->
       exists r, remote id (now w) = Axios.Success r /\
                 terminal (stage (status (Axios.data r))) = true /\
                 o = output (Axios.data r)) ->
    Some (x, {| now := finish id (now w); log := log w ++ [Fetch id (now w)] |})
    = Some (res, w') ->
    exists n : nat,
      (n < S fuel)%nat /\
      pendingFor remote latency terminal id (now w) i n /\
      now w' = pollEnd n id i (now w) /\
      log w' = log w ++ cycles n id i (now w) ++ [Fetch id (pollTime n id i (now w))] /\
      (forall o, res = Resolved o ->
         exists r, remote id (pollTime n id i (now w)) = Axios.Success r /\
                   terminal (stage (status (Axios.data r))) = true /\
                   o = output (Axios.data r))).
  { intros x Hx H. injection H as <- <-. exists O. simpl.
    repeat split; [lia| |exact Hx]. intros j Hj. lia. }
  simpl.
  destruct (remote id (now w)) as [r|e] eqn:Hr;
    [rewrite (get_success _ _ r Hr)
    |rewrite (get_failure _ _ e Hr); apply Hzero; discriminate].
  simpl.
  destruct (terminal (stage (status (Axios.data r)))) eqn:Ht.
  { apply Hzero. intros o [= <-]. eauto. }
  destruct (expired deadline (finish id (now w))); [apply Hzero; discriminate|].
  intros H. apply IH in H as (n & Hn & Hp & Hnow & Hlog & Hres).
  simpl in Hp, Hnow, Hlog, Hres. exists (S n). split; [lia|].
  split; [|split; [|split]].
  - intros [|j] Hj.
    + simpl. unfold AsyncRequest.pending. rewrite Hr, Ht. reflexivity.
    + apply (Hp j). lia.
  - exact Hnow.
  - rewrite Hlog. simpl. rewrite <- !app_assoc. reflexivity.
  - exact Hres.
Qed.

(** Whatever [wait] rejects with is the timeout condition or what the
    interceptor made of a failed poll. *)
Lemma poll_rejections (fuel : nat) :
  forall (id : string) (i : Z) (deadline : option Z) (w w' : World) (t : Thrown),
    poll fuel id i deadline w = Some (Rejected t, w') ->
    t = TimeoutError \/ exists e, t = WaasApi.onRejected e.
Proof.
  induction fuel as [|fuel IH]; intros id i deadline w w' t; [discriminate|].
  simpl. unfold AsyncRequest.get.
  destruct (remote id (now w)) as [r|e]; simpl.
  - destruct (terminal _); [discriminate|].
    destruct (expired _ _).
    + intros H. injection H as <- _. now left.
    + apply IH.
  - intros H. injection H as <- _. right. now exists e.
Qed.

(** C5.  [wait] polls until a poll finds a terminal stage and then
    resolves with the output of that status: after [n] polls that found
    the request pending, a terminal status at poll [n+1] makes it resolve,
    when that poll completes, after exactly [n+1] fetches and [n] delays.
    Every delay is the interval the caller configured ([intervalMs], or the
    default without one) and starts when a poll completes.  With [n = 0]
    the first poll is terminal and [wait] returns as soon as it completes,
    without a delay. *)
Theorem wait_resolves_with_terminal_output (id : string) (options : WaitOptions)
  (w : World) (n : nat) (r : Axios.Response IAsyncRequestStatus) :
  let i := configuredInterval defaultIntervalMs options in
  let t := pollTime n id i (now w) in
  let events := cycles n id i (now w) ++ [Fetch id t] in
  pendingFor remote latency terminal id (now w) i n ->
  withinTimeout latency options id (now w) i n ->
  remote id t = Axios.Success r ->
  terminal (stage (status (Axios.data r))) = true ->
  (forall fuel, (n < fuel)%nat ->
     wait fuel id options w
     = Some (Resolved (output (Axios.data r)),
             {| now := finish id t; log := log w ++ events |})) /\
  fetches events = S n /\
  delays events = n /\
  (forall ms s, In (Delay ms s) events ->
     ms = i /\ exists j, (j < n)%nat /\ s = pollEnd j id i (now w)).
Proof.
  intros i t events Hp Hin Hr Ht. split; [|split; [|split]].
  - intros fuel Hfuel. unfold AsyncRequest.wait. rewrite interval_configured.
    replace fuel with (n + S (fuel - S n))%nat by lia.
    rewrite poll_pending_cycles;
      [|exact Hp|now apply withinTimeout_unexpired].
    simpl. rewrite (get_success _ _ r) by exact Hr. simpl. rewrite Ht.
    unfold events, t, i. rewrite <- app_assoc. reflexivity.
  - unfold events.
    destruct (fetches_cycles n id i (now w) [Fetch id t]) as [Hf _].
    rewrite Hf. unfold fetches. simpl. lia.
  - unfold events.
    destruct (fetches_cycles n id i (now w) [Fetch id t]) as [_ Hd].
    rewrite Hd. unfold delays. simpl. lia.
  - intros ms s Hdelay. unfold events in Hdelay.
    apply in_app_or in Hdelay as [Hdelay|[Hdelay|[]]]; [|discriminate].
    now apply delays_of_cycles.
Qed.

(** C6.  A poll that fails ends [wait] there and then with what the
    interceptor made of the failure: the failed fetch is the last event,
    nothing is retried.  A 409 with body [{message: m}] makes [wait] reject
    with the ConflictError whose message is [m].  And however a [wait]
    ends, each of its polls but the last one had found a status that is
    not terminal: nothing else makes it poll again. *)
Theorem wait_propagates_poll_failure (id : string) (options : WaitOptions)
  (w : World) :
  let i := configuredInterval defaultIntervalMs options in
  (forall (n : nat) (e : Axios.Error),
     pendingFor remote latency terminal id (now w) i n ->
     withinTimeout latency options id (now w) i n ->
     remote id (pollTime n id i (now w)) = Axios.Failure e ->
     let t := pollTime n id i (now w) in
     let events := cycles n id i (now w) ++ [Fetch id t] in
     (forall fuel, (n < fuel)%nat ->
        wait fuel id options w
        = Some (Rejected (WaasApi.onRejected e),
                {| now := finish id t; log := log w ++ events |})) /\
     fetches events = S n /\
     (forall m,
        Axios.response e
        = Some (Axios.mkResponse 409 (Js.Obj [("message", Js.Str m)])) ->
        WaasApi.onRejected e = Typed (ConflictError (Js.Str m)) /\
        message (ConflictError (Js.Str m)) = Js.Str m)) /\
  (forall (fuel : nat) (res : Settled (option Js.object)) (w' : World),
     wait fuel id options w = Some (res, w') ->
     exists n : nat,
       pendingFor remote latency terminal id (now w) i n /\
       now w' = pollEnd n id i (now w) /\
       log w'
       = log w ++ cycles n id i (now w) ++ [Fetch id (pollTime n id i (now w))]).
Proof.
  intros i. split.
  - intros n e Hp Hin Hr t events. split; [|split].
    + intros fuel Hfuel. unfold AsyncRequest.wait. rewrite interval_configured.
      replace fuel with (n + S (fuel - S n))%nat by lia.
      rewrite poll_pending_cycles;
        [|exact Hp|now apply withinTimeout_unexpired].
      simpl. rewrite (get_failure _ _ e) by exact Hr. simpl.
      unfold events, t, i. rewrite <- app_assoc. reflexivity.
    + unfold events.
      destruct (fetches_cycles n id i (now w) [Fetch id t]) as [Hf _].
      rewrite Hf. unfold fetches. simpl. lia.
    + intros m He. unfold WaasApi.onRejected. rewrite He. split; reflexivity.
  - intros fuel res w' Hwait. unfold AsyncRequest.wait in Hwait.
    rewrite interval_configured in Hwait.
    apply poll_shape in Hwait as (n & _ & Hp & Hnow & Hlog & _). eauto.
Qed.



End HandleFacts.

(** ** The scenarios *)

Section Scenarios.
Import Errors AsyncRequest.

Local Abbreviation wait400 remote :=
  (AsyncRequest.wait remote Samples.instant Samples.terminal 400%positive).
Local Abbreviation timedWait remote latency :=
  (AsyncRequest.wait remote latency Samples.terminal 400%positive).

Lemma pendingFor_one (remote : string -> Z -> Axios.Exchange IAsyncRequestStatus)
  (latency : string -> Z -> N) (id : string) (i : Z) :
  AsyncRequest.pending remote Samples.terminal id 0 = true ->
  pendingFor remote latency Samples.terminal id 0 i 1.
Proof.
  intros H j Hj. assert (j = O) as -> by lia. exact H.
Defined.

Lemma withinTimeout_none (latency : string -> Z -> N) (options : WaitOptions)
  (id : string) (t0 i : Z) (n : nat) :
  timeoutMs options = None ->
  withinTimeout latency options id t0 i n.
Proof.
  intros Hnone T HT. rewrite Hnone in HT. discriminate HT.
Defined.

(** Submit returned ["job-42"]; the first poll finds it pending, the
    second one, an interval later, finds it confirmed with a hash: [wait()]
    resolves to that output after exactly two polls.  With polls that take
    30 ms and [intervalMs = 250] the second poll is issued 250 ms after the
    first one completed.  On a request that is confirmed at once [wait]
    resolves when the first poll completes. *)
Lemma wait_resolves_with_terminal_output_witness :
  wait400 Samples.confirmedLater 2%nat "job-42" Samples.noOptions Samples.start
  = Some (Resolved (Some Samples.hash),
          {| now := 400;
             log := [Fetch "job-42" 0; Delay 400 0; Fetch "job-42" 400] |}) /\
  timedWait Samples.confirmedSoon Samples.quick 2%nat "job-42" Samples.every250
    Samples.start
  = Some (Resolved (Some Samples.hash),
          {| now := 310;
             log := [Fetch "job-42" 0; Delay 250 30; Fetch "job-42" 280] |}) /\
  timedWait Samples.confirmedAtOnce Samples.quick 1%nat "job-42" Samples.noOptions
    Samples.start
  = Some (Resolved (Some Samples.hash),
          {| now := 30; log := [Fetch "job-42" 0] |}).
Proof.
  split; [|split].
  - refine (proj1 (wait_resolves_with_terminal_output Samples.confirmedLater
                     Samples.instant Samples.terminal 400%positive "job-42"
                     Samples.noOptions Samples.start 1
                     (Samples.response "confirmed" (Some Samples.hash))
                     _ _ _ _) 2%nat _).
    + apply pendingFor_one. reflexivity.
    + apply withinTimeout_none. reflexivity.
    + reflexivity.
    + reflexivity.
    + lia.
  - refine (proj1 (wait_resolves_with_terminal_output Samples.confirmedSoon
                     Samples.quick Samples.terminal 400%positive "job-42"
                     Samples.every250 Samples.start 1
                     (Samples.response "confirmed" (Some Samples.hash))
                     _ _ _ _) 2%nat _).
    + apply pendingFor_one. reflexivity.
    + apply withinTimeout_none. reflexivity.
    + reflexivity.
    + reflexivity.
    + lia.
  - refine (proj1 (wait_resolves_with_terminal_output Samples.confirmedAtOnce
                     Samples.quick Samples.terminal 400%positive "job-42"
                     Samples.noOptions Samples.start 0
                     (Samples.response "confirmed" (Some Samples.hash))
                     _ _ _ _) 1%nat _).
    + intros j Hj. lia.
    + apply withinTimeout_none. reflexivity.
    + reflexivity.
    + reflexivity.
    + lia.
Defined.

(** A poll answered 409 with body [{message: "ramirez"}]: [wait()] rejects
    with the ConflictError of that message, and polls no more. *)
Lemma wait_propagates_poll_failure_witness :
  wait400 Samples.conflictLater 2%nat "job-42" Samples.noOptions Samples.start
  = Some (Rejected (Typed (ConflictError (Js.Str "ramirez"))),
          {| now := 400;
             log := [Fetch "job-42" 0; Delay 400 0; Fetch "job-42" 400] |}) /\
  message (ConflictError (Js.Str "ramirez")) = Js.Str "ramirez".
Proof.
  pose proof (proj1 (wait_propagates_poll_failure Samples.conflictLater
                       Samples.instant Samples.terminal 400%positive "job-42"
                       Samples.noOptions Samples.start)
                1%nat (Samples.failed 409 Samples.ramirez)
                (pendingFor_one Samples.conflictLater Samples.instant "job-42" 400
                   eq_refl)
                (withinTimeout_none Samples.instant Samples.noOptions "job-42" 0 400 1
                   eq_refl)
                eq_refl) as (Hwait & _ & Hconflict).
  split.
  - exact (Hwait 2%nat ltac:(lia)).
  - exact (proj2 (Hconflict "ramirez" eq_refl)).
Defined.





(** The loop, run: one second of polling a pending request every 400 ms,
    with polls that take no time, gives up at 1200 ms, after four
    fetches. *)
Example wait_oneSecond_run :
  wait400 Samples.alwaysPending 4%nat "job-42" Samples.oneSecond Samples.start
  = Some (Rejected TimeoutError,
          {| now := 1200;
             log := [Fetch "job-42" 0; Delay 400 0;
                     Fetch "job-42" 400; Delay 400 400;
                     Fetch "job-42" 800; Delay 400 800;
                     Fetch "job-42" 1200] |}).
Proof.
  reflexivity.
Qed.

(** The constructor, run on the credentials of the tests. *)
Example constructor_auth_run :
  WaasApi.constructor Samples.auth
  = (inr (WaasApi.api Samples.auth),
     [WaasApi.AxiosCreate (WaasApi.api Samples.auth); WaasApi.InterceptorsUse]) /\
  Axios.headers (WaasApi.api Samples.auth)
  = [ ("tangany-client-id", Js.Str "1");
      ("tangany-client-secret", Js.Str "2");
      ("tangany-subscription", Js.Str "3");
      ("common", Js.Obj [("Accept", Js.Str "application/json")]) ].
Proof.
  split; reflexivity.
Qed.

End Scenarios.

(** * Further properties of the code *)

(** ** What an outcome of the interceptor tells about the failure *)

Section InterceptorInversion.
Import Errors.

Lemma withMessage_inv (C : Js.value -> WaasError) (data : Js.value) (t : Thrown) :
  WaasApi.withMessage C data = t ->
  (exists m, Js.get data "message" = Some m /\ t = Typed (C m)) \/
  (Js.is_nil data = true /\ t = TypeError "message").
Proof.
  unfold WaasApi.withMessage. intros <-.
  destruct data; simpl; eauto.
Qed.

(** X1.  A typed error tells the status it was made from: an
    AuthenticationError comes from a 401 only, a ConflictError from a 409
    only, a NotFoundError from a 404 only, each built from the body's
    [message]; a GeneralError comes from any other status only, and is
    built from the whole body and that status, with no activityId. *)
Theorem onRejected_typed_inversion (e : Axios.Error) (w : WaasError) :
  WaasApi.onRejected e = Typed w ->
  exists r,
    Axios.response e = Some r /\
    match w with
    | AuthenticationError m =>
        Axios.status r = 401 /\ Js.get (Axios.data r) "message" = Some m
    | ConflictError m =>
        Axios.status r = 409 /\ Js.get (Axios.data r) "message" = Some m
    | NotFoundError m =>
        Axios.status r = 404 /\ Js.get (Axios.data r) "message" = Some m
    | GeneralError m s a =>
        s = Axios.status r /\ messageStatus s = false /\
        m = Axios.data r /\ a = Js.Undefined
    end.
Proof.
  unfold WaasApi.onRejected.
  destruct (Axios.response e) as [r|]; [|discriminate].
  intros H. exists r. split; [reflexivity|]. unfold messageStatus.
  destruct (Z.eqb_spec (Axios.status r) 401) as [H401|H401].
  { apply withMessage_inv in H as [(m & Hm & [= ->])|[_ [=]]]. auto. }
  destruct (Z.eqb_spec (Axios.status r) 409) as [H409|H409].
  { apply withMessage_inv in H as [(m & Hm & [= ->])|[_ [=]]]. auto. }
  destruct (Z.eqb_spec (Axios.status r) 404) as [H404|H404].
  { apply withMessage_inv in H as [(m & Hm & [= ->])|[_ [=]]]. auto. }
  injection H as <-.
  repeat split.
  destruct (Z.eqb_spec (Axios.status r) 401); [contradiction|].
  destruct (Z.eqb_spec (Axios.status r) 409); [contradiction|].
  destruct (Z.eqb_spec (Axios.status r) 404); [contradiction|reflexivity].
Qed.

Lemma onRejected_typed_inversion_witness :
  exists r,
    Axios.response (Samples.failed 409 Samples.ramirez) = Some r /\
    Axios.status r = 409 /\
    Js.get (Axios.data r) "message" = Some (Js.Str "ramirez").
Proof.
  exact (onRejected_typed_inversion (Samples.failed 409 Samples.ramirez)
           (ConflictError (Js.Str "ramirez")) eq_refl).
Defined.

(** X2.  The outcomes that are no typed error: the raw transport error
    comes out for the failures without a response, and for them only, and
    is the failure itself; the TypeError comes out for the 401, 404 and 409
    responses whose body is null or undefined, and for them only; the
    interceptor raises nothing else. *)
Theorem onRejected_untyped_outcomes (e : Axios.Error) :
  (forall e', WaasApi.onRejected e = Raw e' <->
              e' = e /\ Axios.response e = None) /\
  (forall p, WaasApi.onRejected e = TypeError p <->
             p = "message"%string /\
             exists r, Axios.response e = Some r /\
                       messageStatus (Axios.status r) = true /\
                       Js.is_nil (Axios.data r) = true) /\
  (forall p, WaasApi.onRejected e <> TfTypeError p) /\
  WaasApi.onRejected e <> TimeoutError.
Proof.
  assert (Hcases :
    (Axios.response e = None /\ WaasApi.onRejected e = Raw e) \/
    (exists r, Axios.response e = Some r /\
       ((messageStatus (Axios.status r) = true /\
         Js.is_nil (Axios.data r) = true /\
         WaasApi.onRejected e = TypeError "message") \/
        (exists w, WaasApi.onRejected e = Typed w /\
           (messageStatus (Axios.status r) = false \/
            Js.is_nil (Axios.data r) = false))))).
  { destruct (Axios.response e) as [r|] eqn:He.
    - right. exists r. split; [reflexivity|].
      destruct (messageStatus (Axios.status r)) eqn:Hs.
      + rewrite (onRejected_message_status e r He Hs).
        destruct (WaasApi.withMessage (classOf (Axios.status r)) (Axios.data r))
          eqn:Hw; apply withMessage_inv in Hw as [(m & Hm & Ht)|[Hnil Ht]];
          try discriminate.
        * right. exists e0. split; [reflexivity|]. right.
          destruct (Axios.data r); try reflexivity; discriminate.
        * left. injection Ht as ->. auto.
      + rewrite (onRejected_other_status e r He Hs). right. eauto.
    - left. split; [reflexivity|]. unfold WaasApi.onRejected. now rewrite He. }
  destruct Hcases as [[Hnone Hraw]|(r & Hsome & [(Hs & Hnil & Hte)|(w & Hw & Hor)])].
  - rewrite Hraw. split; [|split; [|split]]; try discriminate.
    + intros e'. split.
      * intros [= <-]. auto.
      * intros [-> _]. reflexivity.
    + intros p. split; [discriminate|].
      intros (_ & r & Hr & _). congruence.
  - rewrite Hte. split; [|split; [|split]]; try discriminate.
    + intros e'. split; [discriminate|]. intros [_ Hr]. congruence.
    + intros p. split.
      * intros [= <-]. split; [reflexivity|]. exists r. auto.
      * intros [-> _]. reflexivity.
  - rewrite Hw. split; [|split; [|split]]; try discriminate.
    + intros e'. split; [discriminate|]. intros [_ Hr]. congruence.
    + intros p. split; [discriminate|].
      intros (_ & r' & Hr' & Hs' & Hnil').
      assert (r' = r) as -> by congruence.
      destruct Hor; congruence.
Qed.

End InterceptorInversion.

(** ** What the constructor accepts, and what it tells otherwise *)

Section ConstructorAcceptance.
Import Errors.

Lemma known_In (k : string) (s : Typeforce.schema) :
  Typeforce.known k s = true <->
  In k (map fst s) \/ In k Typeforce.objectPrototype.
Proof.
  unfold Typeforce.known. rewrite orb_true_iff, !existsb_exists. split.
  - intros [([k' t] & Hin & Heq)|(k' & Hin & Heq)].
    + simpl in Heq. apply String.eqb_eq in Heq. subst.
      left. apply in_map_iff. now exists (k', t).
    + apply String.eqb_eq in Heq. subst. now right.
  - intros [Hin|Hin].
    + apply in_map_iff in Hin as ([k' t] & <- & Hin). left.
      exists (k', t). split; [assumption|]. apply String.eqb_refl.
    + right. exists k. split; [assumption|]. apply String.eqb_refl.
Qed.

(** typeforce, in strict mode, passes an object exactly when every
    property of the schema has its type and the object has no property
    besides, but for the names every object inherits. *)
Lemma typeforce_object_passes (s : Typeforce.schema) (value : Js.object) :
  Typeforce.object s value true = None <->
  (forall k t, In (k, t) s -> Typeforce.check t (Js.prop k value) = true) /\
  (forall k v, In (k, v) value ->
     In k (map fst s) \/ In k Typeforce.objectPrototype).
Proof.
  unfold Typeforce.object.
  destruct (find _ s) as [[k t]|] eqn:Hschema.
  - split; [discriminate|]. intros [Hall _].
    apply find_some in Hschema as [Hin Hbad]. simpl in Hbad.
    rewrite (Hall k t Hin) in Hbad. discriminate.
  - pose proof (find_none _ _ Hschema) as Hall.
    destruct (find _ value) as [[k v]|] eqn:Hvalue.
    + split; [discriminate|]. intros [_ Hknown].
      apply find_some in Hvalue as [Hin Hbad]. simpl in Hbad.
      apply negb_true_iff in Hbad.
      apply Hknown, known_In in Hin. congruence.
    + split; [|reflexivity]. intros _. split.
      * intros k t Hin. apply Hall in Hin. simpl in Hin.
        now apply negb_false_iff in Hin.
      * intros k v Hin. apply (find_none _ _ Hvalue) in Hin. simpl in Hin.
        apply negb_false_iff in Hin. now apply known_In.
Qed.

Lemma wellFormed_iff (v : Js.value) :
  wellFormed v <-> Js.truthy v = true /\ Js.is_string v = true.
Proof.
  split.
  - intros H. split; [now apply wellFormed_truthy|].
    destruct H as (s & -> & _). reflexivity.
  - intros [Ht Hs]. destruct v; try discriminate. exists s.
    split; [reflexivity|]. intros ->. discriminate.
Qed.

(** What a built instance tells about the options. *)
Lemma constructor_built_inv (options : Js.object) (config : Axios.RequestConfig)
  (effects : list WaasApi.Effect) :
  WaasApi.constructor options = (inr config, effects) ->
  config = WaasApi.api options /\
  effects = [WaasApi.AxiosCreate (WaasApi.api options); WaasApi.InterceptorsUse] /\
  (forall name, In name credentials -> wellFormed (Js.prop name options)) /\
  optionalsTyped options /\
  onlyKnownOptions options.
Proof.
  unfold WaasApi.constructor.
  destruct (Js.truthy (Js.prop "clientId" options)) eqn:H1; [|discriminate].
  destruct (Js.truthy (Js.prop "clientSecret" options)) eqn:H2; [|discriminate].
  destruct (Js.truthy (Js.prop "subscription" options)) eqn:H3; [|discriminate].
  simpl.
  destruct (Typeforce.object WaasApi.optionsType options true) as [p|] eqn:Htf;
    [discriminate|].
  intros [= <- <-].
  apply typeforce_object_passes in Htf as [Hall Hk].
  repeat split; try exact Hk.
  - intros name [<-|[<-|[<-|[]]]]; apply wellFormed_iff; split;
      try assumption; apply (Hall _ Typeforce.String); simpl; auto.
  - intros k t Hin. apply orb_true_iff. exact (Hall _ _ Hin).
Qed.

(** Options the constructor builds an instance from. *)
Lemma constructor_builds (options : Js.object) :
  (forall name, In name credentials -> wellFormed (Js.prop name options)) ->
  optionalsTyped options ->
  onlyKnownOptions options ->
  WaasApi.constructor options
  = (inr (WaasApi.api options),
     [WaasApi.AxiosCreate (WaasApi.api options); WaasApi.InterceptorsUse]).
Proof.
  intros Hc Ho Hk. unfold WaasApi.constructor.
  rewrite !wellFormed_truthy by (apply Hc; simpl; auto). simpl.
  assert (Typeforce.object WaasApi.optionsType options true = None) as ->;
    [|reflexivity].
  apply typeforce_object_passes. split; [|exact Hk].
  intros k t Hin. simpl in Hin.
  destruct Hin as [[= <- <-]|[[= <- <-]|[[= <- <-]|Hin]]];
    try (apply wellFormed_iff, Hc; simpl; now auto).
  destruct t as [| |t]; try (simpl in Hin; intuition discriminate).
  simpl. apply orb_true_iff. apply Ho. simpl. auto 10.
Qed.

(** X3.  The constructor builds an instance exactly when the three
    credentials are strings with something in them, every optional option
    is left out (undefined or null) or of its type, and the options hold
    no property besides the ten known ones and the names every object
    inherits ([toString] and the like), which the strict check lets
    through; a built instance has the configuration [api options], and it
    is created before the interceptor is installed. *)
Theorem constructor_accepts_iff (options : Js.object) :
  ((exists config effects, WaasApi.constructor options = (inr config, effects)) <->
   (forall name, In name credentials -> wellFormed (Js.prop name options)) /\
   optionalsTyped options /\
   onlyKnownOptions options) /\
  (forall config effects,
     WaasApi.constructor options = (inr config, effects) ->
     config = WaasApi.api options /\
     effects = [WaasApi.AxiosCreate (WaasApi.api options); WaasApi.InterceptorsUse]).
Proof.
  split; [split|].
  - intros (config & effects & Hbuilt).
    apply constructor_built_inv in Hbuilt as (_ & _ & Hc & Ho & Hk). auto.
  - intros (Hc & Ho & Hk). do 2 eexists.
    exact (constructor_builds options Hc Ho Hk).
  - intros config effects Hbuilt.
    apply constructor_built_inv in Hbuilt as (Hconfig & Heffects & _). auto.
Qed.

(** The constructor, run on all the options of the tests. *)
Example constructor_accepts_all_options :
  exists config effects,
    WaasApi.constructor
      (Samples.auth ++
       [ ("vaultUrl", Js.Str "https://my-vault.some-cloud.tld");
         ("ethereumNetwork", Js.Str "ropsten");
         ("ethereumTxSpeed", Js.Str "default");
         ("bitcoinNetwork", Js.Str "bitcoin");
         ("bitcoinTxSpeed", Js.Str "fast");
         ("bitcoinTxConfirmations", Js.Str "secure");
         ("bitcoinMaxFeeRate", Js.Num 600) ])
    = (inr config, effects).
Proof.
  eexists. eexists. reflexivity.
Qed.

(** An own property that is named like an inherited one gets through the
    strict check; a misspelt option does not. *)
Example constructor_strict_check_runs :
  WaasApi.constructor (Samples.auth ++ [("toString", Js.Str "bar")])
  = (inr (WaasApi.api Samples.auth),
     [WaasApi.AxiosCreate (WaasApi.api Samples.auth); WaasApi.InterceptorsUse]) /\
  WaasApi.constructor (Samples.auth ++ [("vaultURL", Js.Str "x")])
  = (inl (Errors.TfTypeError "vaultURL"), []).
Proof.
  split; reflexivity.
Qed.

Lemma firstCredential_cases (P : string -> Prop) (name : string) :
  firstCredential P name ->
  name = "clientId"%string \/
  (name = "clientSecret"%string /\ P "clientId"%string) \/
  (name = "subscription"%string /\ P "clientId"%string /\ P "clientSecret"%string).
Proof.
  intros (before & after & Heq & Hbefore). unfold credentials in Heq.
  destruct before as [|b1 [|b2 [|b3 before]]]; simpl in Heq.
  - injection Heq as <- _. auto.
  - injection Heq as <- <- _. right. left. split; [reflexivity|].
    apply Hbefore. simpl. auto.
  - injection Heq as <- <- <- _. right. right. split; [reflexivity|].
    split; apply Hbefore; simpl; auto.
  - injection Heq as _ _ _ Heq. destruct before; discriminate.
Qed.

(** X4.  Which credential the constructor blames.  With the credentials
    checked before it truthy, a falsy credential is the one the
    AuthenticationError names, whatever the later ones are.  With the three
    credentials truthy and the ones before it strings, a credential that is
    no string is reported by typeforce, under its own name, and not as an
    AuthenticationError. *)
Theorem constructor_blames_first_credential (options : Js.object) (name : string) :
  (firstCredential (fun c => Js.truthy (Js.prop c options) = true) name ->
   Js.truthy (Js.prop name options) = false ->
   WaasApi.constructor options
   = (inl (Typed (AuthenticationError
                    (Js.Str ("Missing variable '" ++ name ++ "'")%string))), [])) /\
  ((forall c, In c credentials -> Js.truthy (Js.prop c options) = true) ->
   firstCredential (fun c => Js.is_string (Js.prop c options) = true) name ->
   Js.is_string (Js.prop name options) = false ->
   WaasApi.constructor options = (inl (TfTypeError name), [])).
Proof.
  split.
  - intros Hfirst Hfalsy. unfold WaasApi.constructor.
    apply firstCredential_cases in Hfirst
      as [->|[[-> H1]|[-> [H1 H2]]]].
    + rewrite Hfalsy. reflexivity.
    + rewrite H1, Hfalsy. reflexivity.
    + rewrite H1, H2, Hfalsy. reflexivity.
  - intros Htruthy Hfirst Hbad. unfold WaasApi.constructor.
    rewrite !Htruthy by (simpl; auto). simpl.
    unfold Typeforce.object.
    apply firstCredential_cases in Hfirst
      as [->|[[-> H1]|[-> [H1 H2]]]]; simpl.
    + rewrite Hbad. reflexivity.
    + rewrite H1, Hbad. reflexivity.
    + rewrite H1, H2, Hbad. reflexivity.
Qed.

Lemma constructor_blames_first_credential_witness :
  WaasApi.constructor [("clientId", Js.Str "123"); ("subscription", Js.Str "3")]
  = (inl (Typed (AuthenticationError (Js.Str "Missing variable 'clientSecret'"))), []) /\
  WaasApi.constructor
    [("clientId", Js.Str "123"); ("clientSecret", Js.Bool true);
     ("subscription", Js.Num 7)]
  = (inl (TfTypeError "clientSecret"), []).
Proof.
  split.
  - apply (proj1 (constructor_blames_first_credential
                    [("clientId", Js.Str "123"); ("subscription", Js.Str "3")]
                    "clientSecret")).
    + exists ["clientId"%string], ["subscription"%string].
      split; [reflexivity|]. intros c [<-|[]]. reflexivity.
    + reflexivity.
  - apply (proj2 (constructor_blames_first_credential
                    [("clientId", Js.Str "123"); ("clientSecret", Js.Bool true);
                     ("subscription", Js.Num 7)]
                    "clientSecret")).
    + intros c [<-|[<-|[<-|[]]]]; reflexivity.
    + exists ["clientId"%string], ["subscription"%string].
      split; [reflexivity|]. intros c [<-|[]]. reflexivity.
    + reflexivity.
Defined.

End ConstructorAcceptance.

(** ** The headers of the instance *)

Section Headers.

Lemma prop_set (k k' : string) (v : Js.value) (o : Js.object) :
  Js.prop k (Js.set k' v o) = if String.eqb k k' then v else Js.prop k o.
Proof.
  induction o as [|[k0 v0] rest IH]; simpl.
  - reflexivity.
  - destruct (String.eqb_spec k' k0) as [->|Hne]; simpl.
    + destruct (String.eqb k k0); reflexivity.
    + rewrite IH. destruct (String.eqb_spec k k0) as [->|Hne'].
      * destruct (String.eqb_spec k0 k'); [congruence|reflexivity].
      * reflexivity.
Qed.

Lemma prop_optionalHeader (k h o : string) (options headers : Js.object) :
  Js.prop k (WaasApi.optionalHeader h o options headers)
  = if Js.truthy (Js.prop o options) && String.eqb k h
    then Js.prop o options
    else Js.prop k headers.
Proof.
  unfold WaasApi.optionalHeader.
  destruct (Js.truthy (Js.prop o options)); simpl; [|reflexivity].
  apply prop_set.
Qed.

Lemma keys_set (k : string) (v : Js.value) (o : Js.object) :
  forall k', In k' (map fst (Js.set k v o)) <-> k' = k /\ ~ In k (map fst o) \/ In k' (map fst o).
Proof.
  induction o as [|[k0 v0] rest IH]; intros k'; simpl.
  - intuition congruence.
  - destruct (String.eqb_spec k k0) as [->|Hne]; simpl.
    + intuition congruence.
    + rewrite IH. intuition congruence.
Qed.

Lemma NoDup_keys_set (k : string) (v : Js.value) (o : Js.object) :
  NoDup (map fst o) -> NoDup (map fst (Js.set k v o)).
Proof.
  induction o as [|[k0 v0] rest IH]; simpl; intros Hnd.
  - constructor; [intros []|constructor].
  - inversion Hnd as [|? ? Hnotin Hrest]; subst.
    destruct (String.eqb_spec k k0) as [->|Hne]; simpl.
    + constructor; assumption.
    + constructor; [|now apply IH].
      rewrite keys_set. intuition congruence.
Qed.

Lemma NoDup_keys_optionalHeader (h o : string) (options headers : Js.object) :
  NoDup (map fst headers) ->
  NoDup (map fst (WaasApi.optionalHeader h o options headers)).
Proof.
  unfold WaasApi.optionalHeader.
  destruct (Js.truthy (Js.prop o options)); [apply NoDup_keys_set|trivial].
Qed.

Lemma keys_optionalHeader (h o : string) (options headers : Js.object) (k : string) :
  In k (map fst (WaasApi.optionalHeader h o options headers)) ->
  (k = h /\ Js.truthy (Js.prop o options) = true) \/ In k (map fst headers).
Proof.
  unfold WaasApi.optionalHeader.
  destruct (Js.truthy (Js.prop o options)); [|auto].
  rewrite keys_set. intuition.
Qed.

Lemma credential_header_lookup (options : Js.object) (h c : string) :
  In (h, c) credentialHeaders ->
  Js.prop h (Axios.headers (WaasApi.api options)) = Js.prop c options.
Proof.
  intros Hin. unfold WaasApi.api. simpl Axios.headers.
  rewrite !prop_optionalHeader. simpl in Hin.
  repeat (destruct Hin as [[= <- <-]|Hin];
          [simpl; rewrite ?andb_false_r; reflexivity|]).
  destruct Hin.
Qed.

Lemma optional_header_lookup (options : Js.object) (h o : string) :
  In (h, o) optionalHeaders ->
  Js.prop h (Axios.headers (WaasApi.api options))
  = if Js.truthy (Js.prop o options) then Js.prop o options else Js.Undefined.
Proof.
  intros Hin. unfold WaasApi.api. simpl Axios.headers.
  rewrite !prop_optionalHeader. simpl in Hin.
  repeat (destruct Hin as [[= <- <-]|Hin];
          [simpl; rewrite ?andb_false_r, ?andb_true_r;
           now destruct (Js.truthy _)|]).
  destruct Hin.
Qed.

Lemma headers_NoDup (options : Js.object) :
  NoDup (map fst (Axios.headers (WaasApi.api options))).
Proof.
  unfold WaasApi.api. simpl Axios.headers.
  repeat apply NoDup_keys_optionalHeader. simpl.
  repeat constructor; simpl; intuition discriminate.
Qed.

Lemma headers_keys (options : Js.object) (k : string) :
  In k (map fst (Axios.headers (WaasApi.api options))) ->
  In k (map fst credentialHeaders) \/ k = "common"%string \/
  exists o, In (k, o) optionalHeaders /\ Js.truthy (Js.prop o options) = true.
Proof.
  intros Hin. unfold WaasApi.api in Hin. simpl Axios.headers in Hin.
  repeat (apply keys_optionalHeader in Hin as [[-> Ht]|Hin];
          [right; right; eexists; split; [|exact Ht]; simpl; auto 10|]).
  simpl in Hin. simpl. intuition.
Qed.

(** X5.  What the instance sends.  The three credential headers always
    carry the credentials, and [common] asks for JSON; the header of an
    optional option carries the option when the option is truthy and is
    not there at all otherwise, so that an option which passed the type
    check but is the empty string or the number 0 is dropped without a
    word. *)
Theorem api_headers_lookup (options : Js.object) :
  let headers := Axios.headers (WaasApi.api options) in
  (forall h c, In (h, c) credentialHeaders -> Js.prop h headers = Js.prop c options) /\
  Js.prop "common" headers = Js.Obj [("Accept", Js.Str "application/json")] /\
  (forall h o, In (h, o) optionalHeaders ->
     Js.prop h headers
     = if Js.truthy (Js.prop o options) then Js.prop o options else Js.Undefined) /\
  (forall h o, In (h, o) optionalHeaders ->
     Js.prop o options = Js.Str "" \/ Js.prop o options = Js.Num 0 ->
     Js.prop h headers = Js.Undefined).
Proof.
  intros headers. subst headers. split; [|split; [|split]].
  - apply credential_header_lookup.
  - unfold WaasApi.api. simpl Axios.headers.
    rewrite !prop_optionalHeader. simpl. rewrite ?andb_false_r. reflexivity.
  - apply optional_header_lookup.
  - intros h o Hin Hfalsy. rewrite (optional_header_lookup options h o Hin).
    destruct Hfalsy as [-> | ->]; reflexivity.
Qed.

(** X6.  No header is set twice, and the instance has no header besides
    the three of the credentials, [common] and those of the optional
    options that are truthy. *)
Theorem api_headers_names (options : Js.object) :
  let headers := Axios.headers (WaasApi.api options) in
  NoDup (map fst headers) /\
  (forall k, In k (map fst headers) ->
     In k (map fst credentialHeaders) \/ k = "common"%string \/
     exists o, In (k, o) optionalHeaders /\ Js.truthy (Js.prop o options) = true).
Proof.
  intros headers. subst headers. split.
  - apply headers_NoDup.
  - apply headers_keys.
Qed.

End Headers.

(** ** The recipient data of the ERC20 wallet *)

Section RecipientsDataFacts.
Import EthErc20Wallet.

Variable recipientType : Js.object -> option string.

Local Abbreviation getRecipientsData :=
  (EthErc20Wallet.getRecipientsData recipientType).

(** The three properties of the argument stand for any three values. *)
Ltac recipient_values recipient :=
  unfold EthErc20Wallet.getRecipientsData, EthErc20Wallet.checked,
    Typeforce.object, stringOrNil;
  rewrite ?wellFormed_iff;
  generalize (Js.prop "to" recipient) (Js.prop "amount" recipient)
    (Js.prop "from" recipient);
  intros to amount from.

Ltac by_cases :=
  repeat match goal with
         | |- context [Js.truthy ?v] => destruct (Js.truthy v) eqn:?
         | |- context [Js.is_string ?v] => destruct (Js.is_string v) eqn:?
         | |- context [Js.is_nil ?v] => destruct (Js.is_nil v) eqn:?
         end;
  simpl; intuition (subst; try discriminate; try congruence; try reflexivity).

(** X7.  [mint] data: the recipient passes exactly when [amount] is a
    string with something in it, [from] is falsy and [to] is a string or
    left out; what comes back is [{to, amount}] and nothing else. *)
Theorem getRecipientsData_mint (recipient o : Js.object) :
  getRecipientsData MINT recipient = inr o <->
  o = [("to", Js.prop "to" recipient); ("amount", Js.prop "amount" recipient)] /\
  wellFormed (Js.prop "amount" recipient) /\
  Js.truthy (Js.prop "from" recipient) = false /\
  stringOrNil (Js.prop "to" recipient).
Proof.
  recipient_values recipient. simpl. by_cases.
Qed.

(** X8.  [burn] data: the recipient passes exactly when [amount] is a
    string with something in it and both [to] and [from] are falsy; what
    comes back is [{amount}]. *)
Theorem getRecipientsData_burn (recipient o : Js.object) :
  getRecipientsData BURN recipient = inr o <->
  o = [("amount", Js.prop "amount" recipient)] /\
  wellFormed (Js.prop "amount" recipient) /\
  Js.truthy (Js.prop "to" recipient) = false /\
  Js.truthy (Js.prop "from" recipient) = false.
Proof.
  recipient_values recipient. simpl. by_cases.
Qed.

(** X9.  [transferFrom] data: the recipient passes exactly when [from] and
    [amount] are strings with something in them and [to] is falsy; what
    comes back is [{from, amount}]. *)
Theorem getRecipientsData_transferFrom (recipient o : Js.object) :
  getRecipientsData TRANSFER_FROM recipient = inr o <->
  o = [("from", Js.prop "from" recipient); ("amount", Js.prop "amount" recipient)] /\
  wellFormed (Js.prop "from" recipient) /\
  Js.truthy (Js.prop "to" recipient) = false /\
  wellFormed (Js.prop "amount" recipient).
Proof.
  recipient_values recipient. simpl. by_cases.
Qed.

(** X10.  [transfer] and [approve] data are one case: the recipient passes
    exactly when [to] and [amount] are truthy, [from] is falsy and
    [{to, amount}] has the recipient type; what comes back is
    [{to, amount}]. *)
Theorem getRecipientsData_transfer_approve (recipient o : Js.object) :
  getRecipientsData APPROVE recipient = getRecipientsData TRANSFER recipient /\
  (getRecipientsData TRANSFER recipient = inr o <->
   o = [("to", Js.prop "to" recipient); ("amount", Js.prop "amount" recipient)] /\
   Js.truthy (Js.prop "to" recipient) = true /\
   Js.truthy (Js.prop "from" recipient) = false /\
   Js.truthy (Js.prop "amount" recipient) = true /\
   recipientType
     [("to", Js.prop "to" recipient); ("amount", Js.prop "amount" recipient)]
   = None).
Proof.
  split; [reflexivity|].
  recipient_values recipient.
  destruct (recipientType [("to", to); ("amount", amount)]); by_cases.
Qed.

End RecipientsDataFacts.

(** ** The errors and the requests of the ERC20 wallet *)

Section Erc20Methods.
Import EthErc20Wallet.

Variable recipientType : Js.object -> option string.

Local Abbreviation getRecipientsData :=
  (EthErc20Wallet.getRecipientsData recipientType).
Local Abbreviation send := (EthErc20Wallet.send recipientType).
Local Abbreviation approve := (EthErc20Wallet.approve recipientType).
Local Abbreviation transferFrom := (EthErc20Wallet.transferFrom recipientType).
Local Abbreviation burn := (EthErc20Wallet.burn recipientType).
Local Abbreviation mint := (EthErc20Wallet.mint recipientType).

Lemma truthy_not_nil (v : Js.value) :
  Js.truthy v = true -> Js.is_nil v = false.
Proof.
  destruct v; simpl; intros H; try reflexivity; discriminate.
Qed.

Ltac split_on_tests H :=
  repeat match type of H with
         | context [Js.truthy ?v] => destruct (Js.truthy v) eqn:?
         | context [Js.is_string ?v] => destruct (Js.is_string v) eqn:?
         | context [Js.is_nil ?v] => destruct (Js.is_nil v) eqn:?
         | context [recipientType ?v] => destruct (recipientType v) eqn:?
         end;
  simpl in H.

(** X11.  A typeforce error of the [mint], [burn] and [transferFrom] data
    names one of [to], [amount], [from], and the property it names is
    given (neither undefined nor null) and is no string. *)
Theorem getRecipientsData_type_error (method : METHOD) (recipient : Js.object)
  (p : string) :
  method = MINT \/ method = BURN \/ method = TRANSFER_FROM ->
  getRecipientsData method recipient = inl (TfTypeError p) ->
  In p ["to"; "amount"; "from"]%string /\
  Js.is_nil (Js.prop p recipient) = false /\
  Js.is_string (Js.prop p recipient) = false.
Proof.
  intros Hmethod H.
  unfold EthErc20Wallet.getRecipientsData, EthErc20Wallet.checked,
    Typeforce.object in H.
  remember (Js.prop "to" recipient) as to eqn:Hto.
  remember (Js.prop "amount" recipient) as amount eqn:Hamount.
  remember (Js.prop "from" recipient) as from eqn:Hfrom.
  destruct Hmethod as [-> | [-> | ->]]; simpl in H; split_on_tests H;
    try discriminate; injection H as <-; subst; simpl;
    auto using truthy_not_nil.
Qed.

(** X12.  The messages are true of the recipient: a property reported
    missing is falsy, a property reported invalid is truthy, and no other
    message is ever used, whatever the method. *)
Theorem getRecipientsData_messages (method : METHOD) (recipient : Js.object)
  (message : string) :
  getRecipientsData method recipient = inl (Error message) ->
  (message = "Missing 'to' argument"%string /\
   Js.truthy (Js.prop "to" recipient) = false) \/
  (message = "Missing 'amount' argument"%string /\
   Js.truthy (Js.prop "amount" recipient) = false) \/
  (message = "Missing 'from' argument"%string /\
   Js.truthy (Js.prop "from" recipient) = false) \/
  (message = "Invalid 'to' argument"%string /\
   Js.truthy (Js.prop "to" recipient) = true) \/
  (message = "Invalid 'from' argument"%string /\
   Js.truthy (Js.prop "from" recipient) = true).
Proof.
  intros H.
  unfold EthErc20Wallet.getRecipientsData, EthErc20Wallet.checked,
    Typeforce.object in H.
  remember (Js.prop "to" recipient) as to eqn:Hto.
  remember (Js.prop "amount" recipient) as amount eqn:Hamount.
  remember (Js.prop "from" recipient) as from eqn:Hfrom.
  destruct method; simpl in H; split_on_tests H;
    try discriminate; injection H as <-; auto 10.
Qed.

Ltac method_cases :=
  repeat match goal with
         | |- context [Js.truthy ?v] => destruct (Js.truthy v) eqn:?
         | |- context [Js.is_string ?v] => destruct (Js.is_string v) eqn:?
         | |- context [Js.is_nil ?v] => destruct (Js.is_nil v) eqn:?
         | |- context [recipientType ?v] => destruct (recipientType v) eqn:?
         end;
  simpl; intuition (subst; try discriminate; try congruence; try reflexivity).

(** X13.  The methods that pick their fields out of the argument never
    complain about the others: [burn] reads [amount] only and never reports
    an invalid [to] or [from], [approve] and [mint] never report an invalid
    [from], [transferFrom] never reports an invalid [to].  [send] hands its
    whole argument over, and does report a [from] besides a [to]. *)
Theorem erc20_methods_drop_other_fields (address wallet : string) (arg : Js.object) :
  burn address wallet arg <> inl (Error "Invalid 'to' argument") /\
  burn address wallet arg <> inl (Error "Invalid 'from' argument") /\
  approve address wallet arg <> inl (Error "Invalid 'from' argument") /\
  mint address wallet arg <> inl (Error "Invalid 'from' argument") /\
  transferFrom address wallet arg <> inl (Error "Invalid 'to' argument") /\
  (Js.truthy (Js.prop "to" arg) = true ->
   Js.truthy (Js.prop "from" arg) = true ->
   send address wallet arg = inl (Error "Invalid 'from' argument")).
Proof.
  unfold EthErc20Wallet.burn, EthErc20Wallet.approve, EthErc20Wallet.mint,
    EthErc20Wallet.transferFrom, EthErc20Wallet.send, EthErc20Wallet.post,
    EthErc20Wallet.getRecipientsData, EthErc20Wallet.checked, Typeforce.object.
  generalize (Js.prop "to" arg) (Js.prop "amount" arg) (Js.prop "from" arg).
  intros to amount from. simpl.
  repeat split; try (intros -> ->; reflexivity); method_cases.
Qed.

(** X14.  What [burn], [mint] and [transferFrom] post.  Each posts
    exactly when the fields it reads pass: [amount] a string with something
    in it, [to] of [mint] a string or left out, [from] of [transferFrom] a
    string with something in it.  The request then goes to
    [eth/erc20/<address>/<wallet>/<operation>] and its body holds those
    fields only. *)
Theorem erc20_methods_post (address wallet : string) (arg : Js.object)
  (request : Post) :
  let to := Js.prop "to" arg in
  let amount := Js.prop "amount" arg in
  let from := Js.prop "from" arg in
  let path operation :=
    ("eth/erc20/" ++ address ++ "/" ++ wallet ++ "/" ++ operation)%string in
  (burn address wallet arg = inr request <->
   request = {| url := path "burn"%string; data := [("amount", amount)] |} /\
   wellFormed amount) /\
  (mint address wallet arg = inr request <->
   request = {| url := path "mint"%string; data := [("to", to); ("amount", amount)] |} /\
   wellFormed amount /\ stringOrNil to) /\
  (transferFrom address wallet arg = inr request <->
   request = {| url := path "transfer-from"%string;
                data := [("from", from); ("amount", amount)] |} /\
   wellFormed from /\ wellFormed amount).
Proof.
  intros to amount from path. subst to amount from path.
  unfold EthErc20Wallet.burn, EthErc20Wallet.mint, EthErc20Wallet.transferFrom,
    EthErc20Wallet.post, EthErc20Wallet.getRecipientsData, EthErc20Wallet.checked,
    Typeforce.object, stringOrNil.
  rewrite ?wellFormed_iff.
  generalize (Js.prop "to" arg) (Js.prop "amount" arg) (Js.prop "from" arg).
  intros to amount from. simpl.
  destruct (Js.truthy amount), (Js.is_string amount), (Js.truthy from),
    (Js.is_string from), (Js.is_nil to), (Js.is_string to); simpl;
    repeat split;
    intuition (subst; try discriminate; try congruence; try reflexivity).
Qed.

End Erc20Methods.

Section Erc20Runs.
Import EthErc20Wallet.

Lemma getRecipientsData_type_error_witness :
  In "amount"%string ["to"; "amount"; "from"]%string /\
  Js.is_nil (Js.prop "amount" [("amount", Js.Num 5)]) = false /\
  Js.is_string (Js.prop "amount" [("amount", Js.Num 5)]) = false.
Proof.
  exact (getRecipientsData_type_error (fun _ => None) BURN
           [("amount", Js.Num 5)] "amount" (or_intror (or_introl eq_refl)) eq_refl).
Defined.

Lemma getRecipientsData_messages_witness :
  ("Missing 'from' argument"%string = "Missing 'to' argument"%string /\
   Js.truthy (Js.prop "to" [("amount", Js.Str "1")]) = false) \/
  ("Missing 'from' argument"%string = "Missing 'amount' argument"%string /\
   Js.truthy (Js.prop "amount" [("amount", Js.Str "1")]) = false) \/
  ("Missing 'from' argument"%string = "Missing 'from' argument"%string /\
   Js.truthy (Js.prop "from" [("amount", Js.Str "1")]) = false) \/
  ("Missing 'from' argument"%string = "Invalid 'to' argument"%string /\
   Js.truthy (Js.prop "to" [("amount", Js.Str "1")]) = true) \/
  ("Missing 'from' argument"%string = "Invalid 'from' argument"%string /\
   Js.truthy (Js.prop "from" [("amount", Js.Str "1")]) = true).
Proof.
  exact (getRecipientsData_messages (fun _ => None) TRANSFER_FROM
           [("amount", Js.Str "1")] "Missing 'from' argument" eq_refl).
Defined.

Lemma erc20_methods_drop_other_fields_witness :
  EthErc20Wallet.send (fun _ => None) "0xC32AE45504Ee9482db99CfA21066A59E877Bc0e6"
    "func-spec"
    [("to", Js.Str "0xab"); ("amount", Js.Str "1"); ("from", Js.Str "0xcd")]
  = inl (Error "Invalid 'from' argument").
Proof.
  apply (erc20_methods_drop_other_fields (fun _ => None)
           "0xC32AE45504Ee9482db99CfA21066A59E877Bc0e6" "func-spec"
           [("to", Js.Str "0xab"); ("amount", Js.Str "1"); ("from", Js.Str "0xcd")]);
    reflexivity.
Defined.

End Erc20Runs.

(** ** The headers of an instance that was built *)

Section BuiltHeaders.

Lemma prop_In (k : string) (v : Js.value) (o : Js.object) :
  NoDup (map fst o) -> In (k, v) o -> Js.prop k o = v.
Proof.
  induction o as [|[k0 v0] rest IH]; simpl; intros Hnd Hin; [contradiction|].
  inversion Hnd as [|? ? Hnotin Hrest]; subst.
  destruct Hin as [[= -> ->]|Hin].
  - now rewrite String.eqb_refl.
  - destruct (String.eqb_spec k k0) as [->|Hne]; [|now apply IH].
    exfalso. apply Hnotin. apply in_map_iff. now exists (k0, v).
Qed.

Lemma optional_header_typed (options : Js.object) (h o : string) :
  optionalsTyped options ->
  In (h, o) optionalHeaders ->
  Js.truthy (Js.prop o options) = true ->
  Js.is_string (Js.prop o options) = true \/
  (h = "tangany-bitcoin-max-fee-rate"%string /\
   Js.is_number (Js.prop o options) = true).
Proof.
  intros Hopt Hin Htruthy.
  assert (Hgiven : Js.is_nil (Js.prop o options) = false).
  { destruct (Js.prop o options); try reflexivity; discriminate. }
  assert (Hstring : forall k, In (k, Typeforce.Maybe Typeforce.String) WaasApi.optionsType ->
            Js.is_nil (Js.prop k options) = false ->
            Js.is_string (Js.prop k options) = true).
  { intros k Hk Hnil. destruct (Hopt _ _ Hk) as [H|H]; [congruence|exact H]. }
  simpl in Hin.
  destruct Hin as [[= <- <-]|[[= <- <-]|[[= <- <-]|[[= <- <-]|[[= <- <-]|[[= <- <-]|[[= <- <-]|[]]]]]]]];
    try solve [left; apply Hstring; [simpl; auto 20|exact Hgiven]].
  right. split; [reflexivity|].
  destruct (Hopt "bitcoinMaxFeeRate"%string Typeforce.Number ltac:(simpl; auto 20))
    as [H|H]; [congruence|exact H].
Qed.

(** X15.  When the constructor builds an instance, every header it sets
    is a string, but for [common], which is the object asking for JSON, and
    for the fee rate, which is sent as the number it was given. *)
Theorem built_headers_typed (options : Js.object) (config : Axios.RequestConfig)
  (effects : list WaasApi.Effect) (h : string) (v : Js.value) :
  WaasApi.constructor options = (inr config, effects) ->
  In (h, v) (Axios.headers config) ->
  Js.is_string v = true \/
  (h = "common"%string /\ v = Js.Obj [("Accept", Js.Str "application/json")]) \/
  (h = "tangany-bitcoin-max-fee-rate"%string /\ Js.is_number v = true).
Proof.
  intros Hbuilt Hin.
  apply constructor_built_inv in Hbuilt as (-> & _ & Hcreds & Hopt & _).
  pose proof (prop_In h v _ (headers_NoDup options) Hin) as Hv.
  destruct (headers_keys options h (in_map fst _ _ Hin))
    as [Hc|[->|(o & Ho & Htruthy)]].
  - left. apply in_map_iff in Hc as ([h' c] & Heq & Hc). simpl in Heq. subst h'.
    rewrite (credential_header_lookup options h c Hc) in Hv. subst v.
    apply wellFormed_iff, Hcreds.
    simpl in Hc. destruct Hc as [[= _ <-]|[[= _ <-]|[[= _ <-]|[]]]]; simpl; auto.
  - right. left. split; [reflexivity|].
    rewrite <- Hv. unfold WaasApi.api. simpl Axios.headers.
    rewrite !prop_optionalHeader. simpl. rewrite ?andb_false_r. reflexivity.
  - rewrite (optional_header_lookup options h o Ho), Htruthy in Hv. subst v.
    destruct (optional_header_typed options h o Hopt Ho Htruthy); auto.
Qed.

End BuiltHeaders.

Lemma built_headers_typed_witness :
  Js.is_string (Js.Num 600) = true \/
  ("tangany-bitcoin-max-fee-rate"%string = "common"%string /\
   Js.Num 600 = Js.Obj [("Accept", Js.Str "application/json")]) \/
  ("tangany-bitcoin-max-fee-rate"%string = "tangany-bitcoin-max-fee-rate"%string /\
   Js.is_number (Js.Num 600) = true).
Proof.
  apply (built_headers_typed
           (Samples.auth ++ [("bitcoinMaxFeeRate", Js.Num 600)])
           (WaasApi.api (Samples.auth ++ [("bitcoinMaxFeeRate", Js.Num 600)]))
           [WaasApi.AxiosCreate
              (WaasApi.api (Samples.auth ++ [("bitcoinMaxFeeRate", Js.Num 600)]));
            WaasApi.InterceptorsUse]
           "tangany-bitcoin-max-fee-rate" (Js.Num 600)).
  - reflexivity.
  - simpl. auto 10.
Defined.
